(** * pydealer: cards, ranks, stacks and decks

    A shallow embedding of the [pydealer] package (modules [card], [ranks],
    [stack] and [deck]) and the properties of its card-collection engine.

    Python objects are records, a method is a function from [self] (and the
    interpreter state it touches) to an outcome that is either a returned
    value or a raised exception.  Names that a module never binds raise
    [NameError] when they are evaluated, exactly as the interpreter does. *)

From Stdlib Require Import ZArith Ascii String List Lia.
From stdpp Require Import base option list strings gmap pretty.

Local Open Scope string_scope.
Local Open Scope Z_scope.

(* ===================================================================== *)
(** ** The Python fragment the package runs on *)
(* ===================================================================== *)

Module builtins.

(** The exceptions the package raises or runs into. *)
Inductive exception :=
| NameError (name : string)
| UnboundLocalError (name : string)
| AttributeError (attr : string)
| ValueError (msg : string)
| TypeError (msg : string)
| IndexError (msg : string)
| KeyError (key : string).

(** What running a piece of code gives: a value, an exception, or no
    answer within the number of loop iterations allowed ([Diverge]). *)
Inductive outcome (A : Type) :=
| Return (a : A)
| Raise (e : exception)
| Diverge.
Arguments Return {A} a.
Arguments Raise {A} e.
Arguments Diverge {A}.

Definition obind {A B} (m : outcome A) (k : A -> outcome B) : outcome B :=
  match m with
  | Return a => k a
  | Raise e => Raise e
  | Diverge => Diverge
  end.

(** The part of the interpreter state the package reads and writes:
    the allocator of object identities ([id(x)]), the class attribute
    [Ranks._values] (one dictionary for the whole process), and the random
    generator of module [random], an arbitrary sequence of draws of which
    [random_pos] have been consumed. *)
Inductive rank :=
| RInt (z : Z)
| RFloat (cardvalue suitvalue : Z).   (* cardvalue + suitvalue / 100 *)

Record world := mkWorld {
  next_id : nat;
  Ranks__values : gmap string (gmap string rank);
  random_draws : nat -> nat;
  random_pos : nat
}.

(** Code with effects: state passing, with the state kept when an
    exception is raised. *)
Definition Py (A : Type) : Type := world -> outcome A * world.

Definition ret {A} (a : A) : Py A := fun w => (Return a, w).
Definition raise {A} (e : exception) : Py A := fun w => (Raise e, w).
Definition lift {A} (m : outcome A) : Py A := fun w => (m, w).
Definition bind {A B} (m : Py A) (k : A -> Py B) : Py B :=
  fun w => match m w with
           | (Return a, w') => k a w'
           | (Raise e, w') => (Raise e, w')
           | (Diverge, w') => (Diverge, w')
           end.

(** Python values that reach the package as faces, suits and values. *)
Inductive object :=
| PyNone
| PyBool (b : bool)
| PyInt (z : Z)
| PyStr (s : string).

#[global] Instance object_eq_dec : EqDecision object.
Proof. solve_decision. Defined.

(** [bool(x)] *)
Definition truthy (x : object) : bool :=
  match x with
  | PyNone => false
  | PyBool b => b
  | PyInt z => negb (z =? 0)
  | PyStr s => negb (String.eqb s "")
  end.

(** [x == y] on these values: numbers compare by value ([True] is [1]),
    strings by content, and values of different kinds are unequal. *)
Definition number_of (x : object) : option Z :=
  match x with
  | PyBool b => Some (if b then 1 else 0)
  | PyInt z => Some z
  | _ => None
  end.

Definition py_eq (x y : object) : bool :=
  match x, y with
  | PyNone, PyNone => true
  | PyStr s, PyStr t => String.eqb s t
  | _, _ => match number_of x, number_of y with
            | Some a, Some b => a =? b
            | _, _ => false
            end
  end.

(** [str(x)] *)
Definition str (x : object) : string :=
  match x with
  | PyNone => "None"
  | PyBool true => "True"
  | PyBool false => "False"
  | PyInt z => pretty z
  | PyStr s => s
  end.

(** ASCII case mapping, as [str.upper] and [str.lower] act on ASCII text. *)
Definition upper (c : ascii) : ascii :=
  let n := N_of_ascii c in
  if ((97 <=? n) && (n <=? 122))%N then ascii_of_N (n - 32) else c.

Definition lower (c : ascii) : ascii :=
  let n := N_of_ascii c in
  if ((65 <=? n) && (n <=? 90))%N then ascii_of_N (n + 32) else c.

Fixpoint lower_all (s : string) : string :=
  match s with
  | EmptyString => EmptyString
  | String c r => String (lower c) (lower_all r)
  end.

(** [s.capitalize()] *)
Definition capitalize (s : string) : string :=
  match s with
  | EmptyString => EmptyString
  | String c r => String (upper c) (lower_all r)
  end.

(** [int(s)] for a string, base 10: surrounding white space is dropped,
    one sign is allowed, then decimal digits, where a single underscore
    may stand between two digits. *)
Definition is_space (c : ascii) : bool :=
  let n := N_of_ascii c in
  ((n =? 32) || ((9 <=? n) && (n <=? 13)))%N.

Definition digit_of (c : ascii) : option Z :=
  let n := N_of_ascii c in
  if ((48 <=? n) && (n <=? 57))%N then Some (Z.of_N (n - 48)) else None.

Fixpoint lstrip (s : list ascii) : list ascii :=
  match s with
  | c :: r => if is_space c then lstrip r else s
  | [] => []
  end.

Definition strip (s : list ascii) : list ascii :=
  rev (lstrip (rev (lstrip s))).

(** [digits acc after_digit s]: the number read so far is [acc];
    [after_digit] tells whether the previous character was a digit (an
    underscore is allowed only there, and must be followed by a digit). *)
Fixpoint digits (acc : Z) (after_digit : bool) (s : list ascii) : option Z :=
  match s with
  | [] => if after_digit then Some acc else None
  | c :: r =>
      match digit_of c with
      | Some d => digits (10 * acc + d) true r
      | None =>
          if (N_of_ascii c =? 95)%N && after_digit
          then match r with
               | c' :: _ => if digit_of c' is Some _ then digits acc false r else None
               | [] => None
               end
          else None
      end
  end.

Definition int_of_string (s : string) : option Z :=
  match strip (list_ascii_of_string s) with
  | c :: r =>
      if (N_of_ascii c =? 45)%N then Z.opp <$> digits 0 false r
      else if (N_of_ascii c =? 43)%N then digits 0 false r
      else digits 0 false (c :: r)
  | [] => None
  end.

(** [int(x)] *)
Definition int (x : object) : outcome Z :=
  match x with
  | PyNone => Raise (TypeError "int() argument must be a string or a number")
  | PyBool b => Return (if b then 1 else 0)
  | PyInt z => Return z
  | PyStr s => match int_of_string s with
             | Some z => Return z
             | None => Raise (ValueError "invalid literal for int() with base 10")
             end
  end.

(** Evaluating a global name: bound if the module (or the builtins)
    defines it, [NameError] otherwise. *)
Definition builtin_names : list string :=
  ["str"; "int"; "len"; "abs"; "id"; "hash"; "list"; "dict"; "range";
   "sorted"; "slice"; "super"; "object"; "getattr"; "isinstance";
   "enumerate"; "ValueError"; "IndexError"; "TypeError"].

Definition global_name (module_names : list string) (name : string) : outcome unit :=
  if bool_decide (name ∈ (module_names ++ builtin_names)%list) then Return tt
  else Raise (NameError name).

(** Reading a local variable: [UnboundLocalError] before its first
    assignment. *)
Definition local_name {A} (name : string) (binding : option A) : outcome A :=
  match binding with
  | Some a => Return a
  | None => Raise (UnboundLocalError name)
  end.

(** The state of an interpreter that has just imported the package:
    no object allocated, [Ranks._values = {}]. *)
Definition start (draws : nat -> nat) : world := mkWorld 0 ∅ draws 0.

(** [object()] allocation: a fresh identity. *)
Definition new_object : Py nat :=
  fun w => (Return (next_id w),
            mkWorld (S (next_id w)) (Ranks__values w) (random_draws w) (random_pos w)).

(** Reading a module-level variable that holds a plain value, given the
    variables the module binds to such values: [NameError] for any other
    name. *)
Definition global_value (variables : list (string * object)) (name : string)
    : outcome object :=
  match (list_to_map variables : gmap string object) !! name with
  | Some v => Return v
  | None => Raise (NameError name)
  end.

(** [x[k]] on these values: a character of a string (negative indices
    count from the end), [TypeError] for the values that are not
    subscriptable. *)
Definition subscript (x : object) (k : Z) : outcome object :=
  match x with
  | PyStr s =>
      let cs := list_ascii_of_string s in
      let n := Z.of_nat (length cs) in
      let k' := if k <? 0 then k + n else k in
      if (0 <=? k') && (k' <? n) then
        match cs !! Z.to_nat k' with
        | Some c => Return (PyStr (String c EmptyString))
        | None => Raise (IndexError "string index out of range")
        end
      else Raise (IndexError "string index out of range")
  | _ => Raise (TypeError "object is not subscriptable")
  end.

(** [x.lower()]: a method of strings only. *)
Definition lower_method (x : object) : outcome object :=
  match x with
  | PyStr s => Return (PyStr (lower_all s))
  | _ => Raise (AttributeError "lower")
  end.

(** [[x.lower() for x in xs]] *)
Fixpoint lower_each (xs : list object) : outcome (list object) :=
  match xs with
  | [] => Return []
  | x :: xs' =>
      obind (lower_method x) (fun y =>
      obind (lower_each xs') (fun ys => Return (y :: ys)))
  end.

End builtins.
Import builtins.

#[global] Instance Py_ret : MRet Py := @ret.
#[global] Instance Py_bind : MBind Py := fun A B k m => bind m k.

(* ===================================================================== *)
(** ** Module [pydealer.card] *)
(* ===================================================================== *)

Module card.

(** The names bound at module level: the three classes, no import. *)
Definition module_names : list string := ["Suits"; "Faces"; "Card"].

Module Suits.
Definition DIAMONDS := "Diamonds".
Definition CLUBS := "Clubs".
Definition HEARTS := "Hearts".
Definition SPADES := "Spades".
(** [Suits()] *)
Definition default : list object :=
  [PyStr CLUBS; PyStr DIAMONDS; PyStr HEARTS; PyStr SPADES].
End Suits.

Module Faces.
Definition TWO := "2".
Definition THREE := "3".
Definition FOUR := "4".
Definition FIVE := "5".
Definition SIX := "6".
Definition SEVEN := "7".
Definition EIGHT := "8".
Definition NINE := "9".
Definition TEN := "10".
Definition JACK := "Jack".
Definition QUEEN := "Queen".
Definition KING := "King".
Definition ACE := "Ace".
Definition JOKER := "Joker".
(** [Faces()] *)
Definition default : list object :=
  [PyStr "2"; PyStr "3"; PyStr "4"; PyStr "5"; PyStr "6"; PyStr "7";
   PyStr "8"; PyStr "9"; PyStr "10"; PyStr JACK; PyStr QUEEN; PyStr KING;
   PyStr ACE].
End Faces.

(** A [Card] instance: its identity and the attributes [__init__] binds.
    The attribute [ranks] is bound by [set_ranks] only, which never gets
    that far (see below), so no instance carries it. *)
Record Card := mkCard {
  ident : nat;
  face : string;
  suit : object;
  value : Z
}.

#[global] Instance Card_eq_dec : EqDecision Card.
Proof. solve_decision. Defined.

(** [set_ranks]: the test [isinstance(ranks, Ranks)] evaluates the name
    [Ranks], which this module does not bind. *)
Definition set_ranks (ranks : object) : Py unit :=
  _ ← lift (global_name module_names "Ranks");
  mret tt.

(** The value derived from the (capitalized) face. *)
Definition face_value (self_face : string) : outcome Z :=
  if String.eqb self_face Faces.JOKER then Return 15
  else if String.eqb self_face Faces.ACE then Return 14
  else if String.eqb self_face Faces.KING then Return 13
  else if String.eqb self_face Faces.QUEEN then Return 12
  else if String.eqb self_face Faces.JACK then Return 11
  else int (PyStr self_face).

(** [Card(face, suit, ranks=None, value=None)] *)
Definition __init__ (face suit : object) (ranks value : option object) : Py Card :=
  self ← new_object;
  let self_face := capitalize (str face) in
  let self_suit := if truthy suit then PyStr (capitalize (str suit)) else suit in
  _ ← match ranks with
      | Some r => set_ranks r
      | None => mret tt
      end;
  self_value ← lift match value with
                    | Some v => int v
                    | None => face_value self_face
                    end;
  mret (mkCard self self_face self_suit self_value).

(** The property [name]. *)
Definition name (self : Card) : string :=
  if py_eq (PyInt (value self)) (PyStr Faces.JOKER) then "Joker"
  else face self +:+ " of " +:+ str (suit self).

(** Attribute access [self.attr] on a [Card]. *)
Definition getattr (self : Card) (attr : string) : outcome object :=
  if String.eqb attr "face" then Return (PyStr (face self))
  else if String.eqb attr "suit" then Return (suit self)
  else if String.eqb attr "value" then Return (PyInt (value self))
  else if String.eqb attr "name" then Return (PyStr (name self))
  else Raise (AttributeError attr).

(** [self == other]: the test evaluates the name [isinstace]. *)
Definition __eq__ (self other : Card) : outcome bool :=
  obind (global_name module_names "isinstace") (fun _ =>
  Return ((value self =? value other) && py_eq (suit self) (suit other))).

(** [self < other] *)
Definition __lt__ (self other : Card) : outcome bool :=
  obind (global_name module_names "isinstance") (fun _ =>
  Return (value self <? value other)).

(** The module-level variables that hold plain values: none, the module
    binds its three classes only. *)
Definition module_variables : list (string * object) := [].

(** [self != other] *)
Definition __ne__ (self other : Card) : outcome bool :=
  obind (__eq__ self other) (fun b => Return (negb b)).

(** [self >= other], [self > other] and [self <= other] *)
Definition __ge__ (self other : Card) : outcome bool :=
  obind (global_name module_names "isinstance") (fun _ =>
  Return (value self >=? value other)).

Definition __gt__ (self other : Card) : outcome bool :=
  obind (global_name module_names "isinstance") (fun _ =>
  Return (value self >? value other)).

Definition __le__ (self other : Card) : outcome bool :=
  obind (global_name module_names "isinstance") (fun _ =>
  Return (value self <=? value other)).

(** [get_rank()]: the arguments of [isinstance(self.ranks, Ranks)] are
    evaluated from the left.  No value of this model is a [Ranks], so past
    the test the method would return [self.value]. *)
Definition get_rank (self : Card) : outcome Z :=
  obind (global_name module_names "isinstance") (fun _ =>
  obind (getattr self "ranks") (fun _ =>
  obind (global_name module_names "Ranks") (fun _ =>
  Return (value self)))).

(** The comparisons by rank: [eq], [ge], [gt], and their negations [ne],
    [lt], [le]. *)
Definition eq (self other : Card) : outcome bool :=
  obind (global_name module_names "isinstance") (fun _ =>
  obind (global_name module_names "Card") (fun _ =>
  obind (get_rank self) (fun x =>
  obind (get_rank other) (fun y => Return (x =? y))))).

Definition ge (self other : Card) : outcome bool :=
  obind (global_name module_names "isinstance") (fun _ =>
  obind (global_name module_names "Card") (fun _ =>
  obind (get_rank self) (fun x =>
  obind (get_rank other) (fun y => Return (x >=? y))))).

Definition gt (self other : Card) : outcome bool :=
  obind (global_name module_names "isinstance") (fun _ =>
  obind (global_name module_names "Card") (fun _ =>
  obind (get_rank self) (fun x =>
  obind (get_rank other) (fun y => Return (x >? y))))).

Definition le (self other : Card) : outcome bool :=
  obind (gt self other) (fun b => Return (negb b)).

Definition lt (self other : Card) : outcome bool :=
  obind (ge self other) (fun b => Return (negb b)).

Definition ne (self other : Card) : outcome bool :=
  obind (eq self other) (fun b => Return (negb b)).

(** The property [abbrev]: except for a Joker it reads the global [suit]. *)
Definition abbrev (self : Card) : outcome string :=
  if String.eqb (face self) Faces.JOKER then Return "JKR"
  else if bool_decide (face self ∈ [Faces.ACE; Faces.KING; Faces.QUEEN; Faces.JACK]) then
    obind (subscript (PyStr (face self)) 0) (fun f0 =>
    obind (global_value module_variables "suit") (fun suit =>
    obind (subscript suit 0) (fun s0 => Return (str f0 +:+ str s0))))
  else
    obind (global_value module_variables "suit") (fun suit =>
    obind (subscript suit 0) (fun s0 => Return (face self +:+ str s0))).

(** [matches(term)]: the list of the six things to compare with is built
    first, then each is lowered; for a face card the code then calls
    [check_list.add], which a list does not have. *)
Definition matches (self : Card) (term : object) : outcome bool :=
  obind (abbrev self) (fun self_abbrev =>
  obind (subscript (suit self) 0) (fun suit0 =>
  obind (lower_each [PyStr (name self); suit self; PyStr (face self);
                     PyInt (value self); PyStr self_abbrev; suit0]) (fun check_list =>
  obind (if bool_decide (face self ∈ [Faces.JOKER; Faces.ACE; Faces.KING;
                                       Faces.QUEEN; Faces.JACK])
         then Raise (AttributeError "add") else Return tt) (fun _ =>
  obind (lower_method term) (fun t =>
  Return (existsb (py_eq t) check_list)))))).

End card.

(* ===================================================================== *)
(** ** Module [pydealer.ranks] *)
(* ===================================================================== *)

Module ranks.
Import card.

(** The names bound at module level. *)
Definition module_names : list string := ["Ranks"].

(** A weight table: a [dict] from names to integers, in insertion order
    (the keys are distinct). *)
Definition weights : Type := list (string * Z).

(** A rank specification: a [dict] that may have the keys ['suits'] and
    ['cards']. *)
Record ranks_dict := mkRanksDict {
  suits : option weights;
  cards : option weights
}.

(** What a caller may pass as [ranks]. *)
Inductive ranks_arg :=
| NotADict (x : object)
| Dict (d : ranks_dict).

(** The class attribute [Ranks.ranks]: all suits equal. *)
Definition class_ranks : ranks_dict :=
  {| suits := Some [("Diamonds", 0); ("Hearts", 0); ("Spades", 0); ("Clubs", 0)];
     cards := Some [("Ace", 14); ("King", 13); ("Queen", 12); ("Jack", 11);
                    ("10", 10); ("9", 9); ("8", 8); ("7", 7); ("6", 6);
                    ("5", 5); ("4", 4); ("3", 3); ("2", 2)] |}.

(** A [Ranks] instance.  [self_ranks] is the instance attribute [ranks]
    when [__init__] bound one; the other fields hold what the attribute
    reads give (instance attribute, else class attribute).  No instance
    attribute [_values] is ever bound: [self._values] is the class
    attribute, kept in the interpreter state. *)
Record Ranks := mkRanks {
  self_ranks : option ranks_dict;
  ace_high : bool;
  suit_first : bool;
  jokers : bool
}.

(** [self.ranks] *)
Definition ranks (self : Ranks) : ranks_dict :=
  default class_ranks (self_ranks self).

(** [self._values] *)
Definition _values (self : Ranks) (w : world) : gmap string (gmap string rank) :=
  Ranks__values w.

Definition set__values (t : gmap string (gmap string rank)) : Py unit :=
  fun w => (Return tt, mkWorld (next_id w) t (random_draws w) (random_pos w)).

Definition _check_ranks_dict (ranks : ranks_arg) : outcome bool :=
  match ranks with
  | NotADict _ => Raise (ValueError "The provided ranks variable is not a dict()")
  | Dict d =>
      match suits d, cards d with
      | Some _, Some _ => Return true
      | _, _ => Raise (ValueError "When providing ranks, both suits and cards must be specified.")
      end
  end.

(** The rank of one face in one suit. *)
Definition rank_value (self : Ranks) (suitvalue cardvalue : Z) : rank :=
  if suit_first self then RInt (suitvalue * cardvalue)
  else if negb (suitvalue =? 0) then RFloat cardvalue suitvalue
  else RInt cardvalue.

(** The inner loop of [build_ranks]: [self._values[suit].update(...)] for
    every face. *)
Definition build_suit (self : Ranks) (suitvalue : Z) (faces : weights)
    (row : gmap string rank) : gmap string rank :=
  foldl (fun row '(card, cardvalue) => <[card := rank_value self suitvalue cardvalue]> row)
        row faces.

(** The outer loop, over the suits still to do. *)
Fixpoint build_suits (self : Ranks) (todo : weights)
    (values : gmap string (gmap string rank))
    : outcome unit * gmap string (gmap string rank) :=
  match todo with
  | [] => (Return tt, values)
  | (suit, suitvalue) :: todo' =>
      let values := if values !! suit is Some _ then values else <[suit := ∅]> values in
      match cards (ranks self) with
      | None => (Raise (KeyError "cards"), values)
      | Some faces =>
          build_suits self todo'
            (<[suit := build_suit self suitvalue faces (values !!! suit)]> values)
      end
  end.

(** [build_ranks]: writes into the shared [_values] in place. *)
Definition build_ranks (self : Ranks) : Py unit :=
  fun w =>
    match suits (ranks self) with
    | None => (Raise (KeyError "suits"), w)
    | Some todo =>
        let '(r, values) := build_suits self todo (_values self w) in
        (r, mkWorld (next_id w) values (random_draws w) (random_pos w))
    end.

(** [Ranks(ranks=None, ace_high=True, suit_first=None, jokers=None)].
    The parameter [jokers] is not used.  With [ace_high] false the
    assignment target [self.ranks['cards'][CardNames.ACE]] evaluates the
    name [CardNames], which the module does not bind. *)
Definition __init__ (ranks : option ranks_arg) (ace_high : bool)
    (suit_first : option bool) (jokers : option object) : Py Ranks :=
  self_ranks ← match ranks with
               | None => mret None
               | Some a =>
                   ok ← lift (_check_ranks_dict a);
                   mret (match a with
                         | Dict d => if ok : bool then Some d else None
                         | NotADict _ => None
                         end)
               end;
  self_ace_high ← (if ace_high then mret true
                   else _ ← lift (global_name module_names "CardNames");
                        mret false);
  let self := mkRanks self_ranks self_ace_high (default false suit_first) false in
  _ ← build_ranks self;
  mret self.

(** What a rank lookup returns: a rank, or a whole row of the table (the
    entry [self._values['Joker']]). *)
Inductive entry :=
| Rank (r : rank)
| Row (row : gmap string rank).

(** [key in d] and [d[key]] for a dictionary with string keys. *)
Definition lookup_object {V} (key : object) (d : gmap string V) : option V :=
  match key with
  | PyStr s => d !! s
  | _ => None
  end.

(** [get_card_rank(card)] *)
Definition get_card_rank (self : Ranks) (c : Card) : Py entry :=
  fun w =>
    let values := _values self w in
    if String.eqb (name c) "Joker" then
      if jokers self then
        match values !! "Joker" with
        | Some row => (Return (Row row), w)
        | None => (Raise (KeyError "Joker"), w)
        end
      else (Return (Rank (RInt 0)), w)
    else
      match lookup_object (suit c) values with
      | None => (Return (Rank (RInt 0)), w)
      | Some row =>
          match getattr c "card" with
          | Return card_card =>
              match lookup_object card_card row with
              | None => (Return (Rank (RInt 0)), w)
              | Some r => (Return (Rank r), w)
              end
          | Raise e => (Raise e, w)
          | Diverge => (Diverge, w)
          end
      end.

(** The attributes and methods of a [Ranks] instance, and [self.attr] as
    far as whether it exists; [None] has none of them. *)
Definition attribute_names : list string :=
  ["_values"; "ace_high"; "jokers"; "suit_first"; "cards"; "ranks"; "__init__";
   "_check_ranks_dict"; "compare_cards"; "build_ranks"; "get_card_rank"].

Definition has_attribute (self : option Ranks) (attr : string) : outcome unit :=
  match self with
  | Some _ =>
      if bool_decide (attr ∈ attribute_names) then Return tt
      else Raise (AttributeError attr)
  | None => Raise (AttributeError attr)
  end.

End ranks.

(* ===================================================================== *)
(** ** Module [pydealer.stack] *)
(* ===================================================================== *)

Module stack.
Import card.

(** The names bound at module level: the imports, the two constants and
    the class.  ([deepcopy] is used by the module but never imported.) *)
Definition module_names : list string :=
  ["cmp_to_key"; "deque"; "random"; "Ranks"; "Card"; "open_cards";
   "save_cards"; "TOP"; "BOTTOM"; "Stack"].

(** The two ends, [TOP = 'top'] and [BOTTOM = 'bottom']. *)
Inductive End := TOP | BOTTOM.

(** An element of a card sequence: a [Card], or the [None] that [deal]
    fills its result list with before the cards are moved into it. *)
Abbreviation item := (option Card).

(** What the attribute [cards] holds: a [collections.deque] (as every
    constructor leaves it) or a plain [list] (as [reverse], [empty],
    [sort] and [insert_list] leave it). *)
Inductive sequence :=
| Deque (l : list item)
| PyList (l : list item).

Definition items (q : sequence) : list item :=
  match q with
  | Deque l => l
  | PyList l => l
  end.

(** The two classes of the hierarchy. *)
Inductive Class := StackClass | DeckClass.

(** The attributes a [Deck] has on top of those of a [Stack], read as
    [self.decks] and so on (instance attribute, else class attribute). *)
Record deck_attributes := mkDeckAttributes {
  decks : Z;
  jokers : Z;
  rebuild : bool;
  reshuffle : bool;
  faces : list object;
  suits : list object
}.

(** A [Stack] instance, or (with [subclass] present) a [Deck] instance. *)
Record Stack := mkStack {
  cards : sequence;
  ranks : option ranks.Ranks;
  subclass : option deck_attributes
}.

Definition __class__ (self : Stack) : Class :=
  if subclass self is Some _ then DeckClass else StackClass.

Definition set_cards (self : Stack) (q : sequence) : Stack :=
  mkStack q (ranks self) (subclass self).

(** What callers pass as [cards]: a list, a deque, a [Stack] or [Deck],
    or a single [Card]. *)
Inductive cards_arg :=
| AList (l : list item)
| ADeque (l : list item)
| AStack (s : Stack)
| ACard (c : Card).

Definition of_sequence (q : sequence) : cards_arg :=
  match q with
  | Deque l => ADeque l
  | PyList l => AList l
  end.

(** [Stack(cards=None, ranks=None)].  A list becomes a deque; for anything
    else [getattr(cards, 'cards')] is evaluated, which raises on a value
    without that attribute (a deque, a card) and otherwise leads to a call
    of the unbound name [deepcopy], or to the [ValueError] when the
    attribute is empty. *)
Definition __init__ (cards : option cards_arg) (ranks : option ranks.Ranks) : Py Stack :=
  self_cards ← match cards with
               | None => mret (Deque [])
               | Some (AList l) => mret (Deque l)
               | Some (AStack s) =>
                   if bool_decide (items (stack.cards s) = []) then
                     raise (ValueError "Cards is not of the correct type to instantiate a Stack")
                   else
                     _ ← lift (global_name module_names "deque");
                     _ ← lift (global_name module_names "deepcopy");
                     mret (Deque (items (stack.cards s)))
               | Some (ADeque _) | Some (ACard _) =>
                   raise (AttributeError "cards")
               end;
  mret (mkStack self_cards ranks None).

(** [len(self)] and the property [size]. *)
Definition __len__ (self : Stack) : Z := Z.of_nat (length (items (cards self))).
Definition size (self : Stack) : Z := Z.of_nat (length (items (cards self))).

(** [q[k]] on a list or deque: negative indices count from the end. *)
Definition sequence_getitem (l : list item) (k : Z) : outcome item :=
  let n := Z.of_nat (length l) in
  let k' := if k <? 0 then k + n else k in
  if (0 <=? k') && (k' <? n) then
    match l !! Z.to_nat k' with
    | Some x => Return x
    | None => Raise (IndexError "index out of range")
    end
  else Raise (IndexError "index out of range").

(** [self[key]] for an integer key. *)
Definition getitem (self : Stack) (key : Z) : outcome item :=
  let self_len := Z.of_nat (length (items (cards self))) in
  let key := if key <? 0 then key + self_len else key in
  if key >=? self_len then Raise (IndexError "The index is out of range.")
  else sequence_getitem (items (cards self)) key.

(** [[self[i] for i in keys]] *)
Fixpoint getitems (self : Stack) (keys : list Z) : outcome (list item) :=
  match keys with
  | [] => Return []
  | i :: keys' =>
      obind (getitem self i) (fun x =>
      obind (getitems self keys') (fun xs => Return (x :: xs)))
  end.

(** [slice(start, stop).indices(len)] for step 1, and [range] of it. *)
Definition slice_bound (bound : option Z) (absent len : Z) : Z :=
  match bound with
  | None => absent
  | Some b => if b <? 0 then Z.max (b + len) 0 else Z.min b len
  end.

Definition slice_range (start stop : option Z) (len : Z) : list Z :=
  let a := slice_bound start 0 len in
  let b := slice_bound stop len len in
  seqZ a (b - a).

(** [self[start:stop]] *)
Definition getslice (self : Stack) (start stop : option Z) : outcome (list item) :=
  getitems self (slice_range start stop (Z.of_nat (length (items (cards self))))).

(** Iterating over a value, as [+=] and [extendleft] do.  A [Stack] has
    no [__iter__]: it is read through [self[0]], [self[1]], ... up to the
    first [IndexError]; a [Card] is not iterable. *)
Definition iterate (x : cards_arg) : outcome (list item) :=
  match x with
  | AList l | ADeque l => Return l
  | AStack s => getitems s (seqZ 0 (Z.of_nat (length (items (cards s)))))
  | ACard _ => Raise (TypeError "'Card' object is not iterable")
  end.

(** [add(cards, end=TOP)].  The first attempt fails on a single [Card]
    only, which the [except] branch then adds as [[cards]]. *)
Definition add (self : Stack) (cards : cards_arg) (end_ : End) : outcome Stack :=
  match end_ with
  | TOP =>
      (* self.cards += cards, and on any exception self.cards += [cards] *)
      let extend (xs : list item) :=
        match stack.cards self with
        | Deque l => Deque (l ++ xs)%list
        | PyList l => PyList (l ++ xs)%list
        end in
      match iterate cards, cards with
      | Return xs, _ => Return (set_cards self (extend xs))
      | Diverge, _ => Diverge
      | Raise _, ACard c => Return (set_cards self (extend [Some c]))
      | Raise e, _ => Raise e
      end
  | BOTTOM =>
      (* self.cards.extendleft(cards): one by one onto the left end *)
      match stack.cards self with
      | PyList _ => Raise (AttributeError "extendleft")
      | Deque l =>
          match iterate cards, cards with
          | Return xs, _ => Return (set_cards self (Deque (rev xs ++ l)%list))
          | Diverge, _ => Diverge
          | Raise _, ACard c => Return (set_cards self (Deque (Some c :: l)))
          | Raise e, _ => Raise e
          end
      end
  end.

(** [self.cards.pop()] and [self.cards.popleft()] on a deque: the card
    and the rest, or nothing ([IndexError]) when the deque is empty. *)
Definition pop (end_ : End) (l : list item) : option (item * list item) :=
  match end_ with
  | TOP => match rev l with
           | x :: r => Some (x, rev r)
           | [] => None
           end
  | BOTTOM => match l with
              | x :: r => Some (x, r)
              | [] => None
              end
  end.

(** The loop of [deal]: [for n in range(num)], leaving it at the first
    exception of the body (an empty deque, or no slot [n] in the result
    list). *)
Fixpoint deal_loop (end_ : End) (ns : list nat) (l : list item) (dealt_cards : list item)
    : list item * list item :=
  match ns with
  | [] => (l, dealt_cards)
  | n :: ns' =>
      match pop end_ l with
      | None => (l, dealt_cards)
      | Some (card, l') =>
          if bool_decide (n < length dealt_cards)%nat
          then deal_loop end_ ns' l' (<[n := card]> dealt_cards)
          else (l', dealt_cards)
      end
  end.

Section methods.

(** [cls(cards=..., ranks=...)] for the class of [self]: which
    constructor runs is decided by the instance ([self.__class__]). *)
Variable new : Class -> option cards_arg -> option ranks.Ranks -> Py Stack.

(** [deal(num=1, end=TOP)]: the dealt cards as a new instance of the
    class of [self], and [self] afterwards. *)
Definition deal (self : Stack) (num : Z) (end_ : End) : Py (Stack * Stack) :=
  match cards self with
  | PyList _ => raise (AttributeError "popleft")
  | Deque l =>
      let self_size := Z.of_nat (length l) in
      let num := if num <=? self_size then num else self_size in
      let dealt_cards := replicate (Z.to_nat num) (None : item) in
      if negb (self_size =? 0) then
        let '(l', dealt_cards) := deal_loop end_ (seq 0 (Z.to_nat num)) l dealt_cards in
        dealt ← new (__class__ self) (Some (AList dealt_cards)) (ranks self);
        mret (dealt, set_cards self (Deque l'))
      else
        dealt ← new (__class__ self) None (ranks self);
        mret (dealt, self)
  end.

(** [split(indice=None)] *)
Definition split (self : Stack) (indice : option Z) : Py (Stack * Stack) :=
  let num_cards := Z.of_nat (length (items (cards self))) in
  let cls := __class__ self in
  match indice with
  | None =>
      let midpoint := num_cards `div` 2 in
      xs ← lift (getslice self (Some 0) (Some midpoint));
      x ← new cls (Some (AList xs)) None;
      ys ← lift (getslice self (Some midpoint) None);
      y ← new cls (Some (AList ys)) None;
      mret (x, y)
  | Some indice =>
      if indice >=? num_cards then
        x ← new cls (Some (of_sequence (cards self))) None;
        y ← new cls None None;
        mret (x, y)
      else if (indice <? 0) && (Z.abs indice >=? num_cards) then
        x ← new cls None None;
        y ← new cls (Some (of_sequence (cards self))) None;
        mret (x, y)
      else if (indice <? 0) && (Z.abs indice <=? num_cards) then
        xs ← lift (getslice self (Some indice) None);
        x ← new cls (Some (AList xs)) None;
        ys ← lift (getslice self (Some 0) (Some (Z.abs indice)));
        y ← new cls (Some (AList ys)) None;
        mret (x, y)
      else
        xs ← lift (getslice self (Some 0) (Some indice));
        x ← new cls (Some (AList xs)) None;
        ys ← lift (getslice self (Some indice) None);
        y ← new cls (Some (AList ys)) None;
        mret (x, y)
  end.

(** [insert_list(cards, indice=-1)] *)
Definition insert_list (self : Stack) (cards : list item) (indice : Z) : Py Stack :=
  let self_size := Z.of_nat (length (items (stack.cards self))) in
  if (indice =? 0) || (indice =? -1) then
    if indice =? -1 then lift (add self (AList cards) TOP)
    else lift (add self (AList cards) BOTTOM)
  else if negb (indice =? self_size) then
    '(half_x, half_y) ← split self (Some indice);
    mret (set_cards self
            (PyList (items (stack.cards half_x) ++ cards ++ items (stack.cards half_y))%list))
  else mret self.

(** [insert(card, indice=-1)] *)
Definition insert (self : Stack) (card : Card) (indice : Z) : Py Stack :=
  insert_list self [Some card] indice.

(** The inner loop of [find_cards], over the cards still to visit.  A
    match evaluates the name [found_indices], which the module does not
    bind (and [i not in x] fails for every plain value [x]), so nothing is
    ever appended to [found_cards] and [count] stays 0. *)
Fixpoint find_term (todo : list item) (term : object) (limit : Z) : outcome unit :=
  match todo with
  | [] => Return tt
  | card :: todo' =>
      obind (match card with
             | Some c => matches c term
             | None => Raise (AttributeError "matches")
             end) (fun m =>
      obind (if m : bool then
               obind (global_value module_variables "found_indices") (fun _ =>
               Raise (TypeError "argument is not iterable"))
             else Return tt) (fun _ =>
      let count := 0 in
      if count >=? limit then Return tt else find_term todo' term limit))
  end.

(** The outer loop, over the terms. *)
Fixpoint find_terms (self : Stack) (terms : list object) (limit : Z) : outcome unit :=
  match terms with
  | [] => Return tt
  | term :: terms' =>
      obind (find_term (items (cards self)) term limit) (fun _ =>
      find_terms self terms' limit)
  end.

(** [find_cards(terms, limit=0, remove=False)]: a stack of the cards found,
    or [False] (here [None]).  The statement [limit == len(self.cards) + 1]
    is a comparison, not an assignment. *)
Definition find_cards (self : Stack) (terms : list object) (limit : Z) (remove : bool)
    : Py (option Stack) :=
  if bool_decide (terms = []) then
    raise (ValueError "Cannot search for an empty list of terms")
  else
    let found_cards : list item := [] in
    _ ← lift (find_terms self terms limit);
    match found_cards with
    | [] => mret None
    | _ => found ← new (__class__ self) (Some (AList found_cards)) None;
           mret (Some found)
    end.

(** [find_card(term)]: the first card found, or [False] (here [None]). *)
Definition find_card (self : Stack) (term : object) : Py (option item) :=
  found ← find_cards self [term] 1 false;
  match found with
  | Some s =>
      if negb (__len__ s =? 0) then
        x ← lift (sequence_getitem (items (cards s)) 0);
        mret (Some x)
      else mret None
  | None => mret None
  end.

End methods.

(** [reverse()]: [self.cards = self[::-1]], a list. *)
Definition reverse (self : Stack) : outcome Stack :=
  let len := Z.of_nat (length (items (cards self))) in
  obind (getitems self (rev (seqZ 0 len))) (fun xs =>
  Return (set_cards self (PyList xs))).

(** [random.shuffle(x)]:
    [for i in reversed(range(1, len(x))): j = randbelow(i + 1); x[i], x[j] = x[j], x[i]]. *)
Definition randbelow (n : nat) : Py nat :=
  fun w => (Return (random_draws w (random_pos w) `mod` n)%nat,
            mkWorld (next_id w) (Ranks__values w) (random_draws w) (S (random_pos w))).

Definition swap (x : list item) (i j : nat) : list item :=
  match x !! i, x !! j with
  | Some a, Some b => <[j := a]> (<[i := b]> x)
  | _, _ => x
  end.

Fixpoint random_shuffle (i : nat) (x : list item) : Py (list item) :=
  match i with
  | O => mret x
  | S i' =>
      j ← randbelow (i + 1);
      random_shuffle i' (swap x i j)
  end.

(** [shuffle(times=1)] *)
Fixpoint shuffle (self : Stack) (times : nat) : Py Stack :=
  match times with
  | O => mret self
  | S times' =>
      let x := items (cards self) in
      x' ← random_shuffle (length x - 1) x;
      shuffle (set_cards self (match cards self with
                               | Deque _ => Deque x'
                               | PyList _ => PyList x'
                               end)) times'
  end.

(** [sorted(xs)] of cards, with [Card.__lt__]: [None] does not compare. *)
Definition item_lt (x y : item) : outcome bool :=
  match x, y with
  | Some a, Some b => __lt__ a b
  | _, _ => Raise (TypeError "'<' not supported")
  end.

Fixpoint insert_sorted (x : item) (xs : list item) : outcome (list item) :=
  match xs with
  | [] => Return [x]
  | y :: ys =>
      obind (item_lt x y) (fun lt =>
      if lt : bool then Return (x :: y :: ys)
      else obind (insert_sorted x ys) (fun r => Return (y :: r)))
  end.

Fixpoint sorted (xs : list item) : outcome (list item) :=
  match xs with
  | [] => Return []
  | x :: xs' => obind (sorted xs') (fun r => insert_sorted x r)
  end.

(** [xs == ys] on two lists of cards, with [Card.__eq__]. *)
Fixpoint list_eq (xs ys : list item) : outcome bool :=
  match xs, ys with
  | [], [] => Return true
  | Some a :: xs', Some b :: ys' =>
      if bool_decide (ident a = ident b) then list_eq xs' ys'
      else obind (__eq__ a b) (fun e =>
           if e : bool then list_eq xs' ys' else Return false)
  | None :: xs', None :: ys' => list_eq xs' ys'
  | _, _ => Return false
  end.

(** [compare(cards)].  The local variable [yours] is read by the first
    test, before any assignment to it. *)
Definition compare (self : Stack) (cards : cards_arg) : outcome bool :=
  let yours : option cards_arg := None in
  obind (local_name "yours" yours) (fun y =>
  obind (match y with
         | AList _ => obind (global_name module_names "deepcopy") (fun _ => iterate cards)
         | AStack _ =>
             obind (global_name module_names "deepcopy") (fun _ =>
             match cards with
             | AStack s => Return (items (stack.cards s))
             | _ => Raise (AttributeError "cards")
             end)
         | _ => Raise (ValueError "Cannot compare stack. Provided value was not a Stack or list")
         end) (fun yours =>
  obind (global_name module_names "deepcopy") (fun _ =>
  let mine := items (stack.cards self) in
  obind (sorted mine) (fun m =>
  obind (sorted yours) (fun y =>
  list_eq m y))))).

(** The module-level variables that hold plain values. *)
Definition module_variables : list (string * object) :=
  [("TOP", PyStr "top"); ("BOTTOM", PyStr "bottom")].

(** A sequence of the same kind with other contents. *)
Definition with_items (q : sequence) (l : list item) : sequence :=
  match q with
  | Deque _ => Deque l
  | PyList _ => PyList l
  end.

(** [self + other]: the merged cards are stored in [self], as a deque; the
    method returns nothing, so the expression [self + other] is [None].
    Neither a deque nor a list has the method [add] that is called for a
    single card. *)
Definition __add__ (self : Stack) (other : cards_arg) : outcome Stack :=
  match other with
  | AList l => Return (set_cards self (Deque (items (cards self) ++ l)%list))
  | AStack s => Return (set_cards self (Deque (items (cards self) ++ items (cards s))%list))
  | ACard _ => Raise (AttributeError "add")
  | ADeque _ => Raise (ValueError "Unmergable value")
  end.

(** [id(x)] of an element: the identity of the card, or that of [None]. *)
Definition id_of (x : item) : option nat := ident <$> x.

(** [card in self]: by identity. *)
Definition __contains__ (self : Stack) (card : Card) : bool :=
  bool_decide (Some (ident card) ∈ id_of <$> items (cards self)).

(** The position an index denotes in a sequence of [n] elements. *)
Definition position (n : nat) (k : Z) : option nat :=
  if (0 <=? k) && (k <? Z.of_nat n) then Some (Z.to_nat k)
  else if (- Z.of_nat n <=? k) && (k <? 0) then Some (Z.to_nat (k + Z.of_nat n))
  else None.

(** [del self[indice]] *)
Definition __delitem__ (self : Stack) (indice : Z) : outcome Stack :=
  match position (length (items (cards self))) indice with
  | Some i => Return (set_cards self (with_items (cards self) (delete i (items (cards self)))))
  | None => Raise (IndexError "index out of range")
  end.

(** [self[indice] = value] *)
Definition __setitem__ (self : Stack) (indice : Z) (value : item) : outcome Stack :=
  match position (length (items (cards self))) indice with
  | Some i => Return (set_cards self (with_items (cards self) (<[i := value]> (items (cards self)))))
  | None => Raise (IndexError "assignment index out of range")
  end.

(** [empty(return_cards=False)]: what is returned, and [self] afterwards,
    with a list for its cards. *)
Definition empty (self : Stack) (return_cards : bool) : option (list item) * Stack :=
  (if return_cards then Some (items (cards self)) else None, set_cards self (PyList [])).

(** [random.randrange(n)] *)
Definition randrange (n : nat) : Py nat :=
  if bool_decide (n = 0%nat) then raise (ValueError "empty range for randrange()")
  else randbelow n.

(** What [random_card] returns: an element of the stack, or an element of
    the global [cards]. *)
Inductive drawn :=
| DrawnItem (x : item)
| DrawnObject (x : object).

(** [random_card(remove=False)].  Without [remove] the card is read off the
    global [cards], not off [self.cards]; with it, [pop(i)] is called, which
    a deque does not accept (its [pop] takes no argument). *)
Definition random_card (self : Stack) (remove : bool) : Py (drawn * Stack) :=
  i ← randrange (length (items (cards self)));
  if negb remove then
    x ← lift (obind (global_value module_variables "cards") (fun cards =>
              subscript cards (Z.of_nat i)));
    mret (DrawnObject x, self)
  else
    match cards self with
    | Deque _ => raise (TypeError "pop() takes no arguments (1 given)")
    | PyList l =>
        match l !! i with
        | Some x => mret (DrawnItem x, set_cards self (PyList (delete i l)))
        | None => raise (IndexError "pop index out of range")
        end
    end.

(** [sort(ranks=None)]: the comparison function is read off the ranks as
    [ranks.compare_rank], before anything is sorted. *)
Definition sort (self : Stack) (ranks : option ranks.Ranks) : outcome Stack :=
  let ranks := match ranks with
               | Some r => Some r
               | None => stack.ranks self
               end in
  obind (global_name module_names "sorted") (fun _ =>
  obind (global_name module_names "cmp_to_key") (fun _ =>
  obind (ranks.has_attribute ranks "compare_rank") (fun _ =>
  obind (ranks.has_attribute ranks "get") (fun _ =>
  Return self)))).

(** [convert_to_stack(deck)]: a list goes to the constructor; of anything
    else the attribute [cards] does, if it is not empty. *)
Definition convert_to_stack (deck : cards_arg) : Py Stack :=
  match deck with
  | AList l => __init__ (Some (AList l)) None
  | AStack s =>
      if bool_decide (items (cards s) = []) then
        raise (ValueError "Cannot convert to Stack, not a list or a Deck")
      else __init__ (Some (of_sequence (cards s))) None
  | ADeque _ | ACard _ => raise (AttributeError "cards")
  end.


(** [self == other] and [self != other] *)
Definition __eq__ (self : Stack) (other : cards_arg) : outcome bool :=
  compare self other.

Definition __ne__ (self : Stack) (other : cards_arg) : outcome bool :=
  obind (compare self other) (fun b => Return (negb b)).

End stack.

(* ===================================================================== *)
(** ** Module [pydealer.deck] *)
(* ===================================================================== *)

Module deck.
Import card stack.

(** The names bound at module level. *)
Definition module_names : list string :=
  ["deque"; "Card"; "Faces"; "Suits"; "Stack"; "TOP"; "BOTTOM"; "Ranks"; "Deck"].

(** [self.attr] for the attributes of class [Deck]. *)
Definition attributes (self : Stack) : outcome deck_attributes :=
  match subclass self with
  | Some d => Return d
  | None => Raise (AttributeError "faces")
  end.

(** [[Card(face, suit) for suit in suits]] for one face. *)
Fixpoint build_face (face : object) (suits : list object) : Py (list item) :=
  match suits with
  | [] => mret []
  | suit :: suits' =>
      c ← card.__init__ face suit None None;
      cs ← build_face face suits';
      mret (Some c :: cs)
  end.

(** [[Card(face, suit) for face in faces for suit in suits]] *)
Fixpoint build_faces (faces suits : list object) : Py (list item) :=
  match faces with
  | [] => mret []
  | face :: faces' =>
      cs ← build_face face suits;
      ds ← build_faces faces' suits;
      mret (cs ++ ds)%list
  end.

(** [[Card(Faces.JOKER, None) for i in range(n)]] *)
Fixpoint build_jokers (n : nat) : Py (list item) :=
  match n with
  | O => mret []
  | S n' =>
      c ← card.__init__ (PyStr Faces.JOKER) PyNone None None;
      cs ← build_jokers n';
      mret (Some c :: cs)
  end.

(** [x or y] on lists. *)
Definition or_list (x : option (list object)) (y : list object) : list object :=
  match x with
  | Some (a :: l) => a :: l
  | _ => y
  end.

(** [build(faces=None, suits=None)]: the new contents (also returned by
    the method) and [self] afterwards.  The attribute [decks] is not
    read. *)
Definition build (self : Stack) (faces suits : option (list object)) : Py Stack :=
  d ← lift (attributes self);
  let faces := or_list faces (stack.faces d) in
  let suits := or_list suits (stack.suits d) in
  cs ← build_faces faces suits;
  js ← (if negb (jokers d =? 0) then build_jokers (Z.to_nat (jokers d)) else mret []);
  mret (set_cards self (Deque (cs ++ js)%list)).

(** [Deck(decks=None, jokers=None, ranks=None, cards=None, build=True,
         rebuild=False, reshuffle=True, faces=None, suits=None)] *)
Definition __init__ (decks jokers : option Z) (ranks : option ranks.Ranks)
    (cards : option cards_arg) (build_ : bool) (rebuild reshuffle : option bool)
    (faces suits : option (list object)) : Py Stack :=
  ranks ← match ranks with
          | None => ranks.__init__ None true None None
          | Some r => mret r
          end;
  '(self, self_decks, self_jokers) ←
    match cards with
    | Some c =>
        if bool_decide (decks ≠ None ∨ jokers ≠ None) then
          raise (ValueError "Invalid combination of parameters for deck instantiation")
        else
          self ← stack.__init__ (Some c) (Some ranks);
          mret (self, 1, 0)
    | None =>
        self ← stack.__init__ None (Some ranks);
        self_decks ← match decks with
                     | None => mret 1
                     | Some n =>
                         if n <? 0 then
                           raise (ValueError "Cannot instantiate a Deck with a negative amount of decks")
                         else mret n
                     end;
        self_jokers ← match jokers with
                      | None => mret 0
                      | Some n =>
                          if n <? 0 then
                            raise (ValueError "Cannot instantiate a Deck with a negative amount of jokers")
                          else mret n
                      end;
        mret (self, self_decks, self_jokers)
    end;
  let d := mkDeckAttributes self_decks self_jokers
             (default false rebuild) (default true reshuffle)
             (default Faces.default faces) (default Suits.default suits) in
  let self := mkStack (stack.cards self) (stack.ranks self) (Some d) in
  if build_ then build self None None else mret self.

(** [cls(cards=..., ranks=...)], by the class of the instance. *)
Definition new (cls : Class) (cards : option cards_arg) (ranks : option ranks.Ranks)
    : Py Stack :=
  match cls with
  | StackClass => stack.__init__ cards ranks
  | DeckClass => __init__ None None ranks cards true (Some false) (Some true) None None
  end.

(** The [while num > 0] loop of [deal]; [fuel] bounds its iterations. *)
Fixpoint deal_loop (fuel : nat) (self : Stack) (_num num : Z) (rebuild : bool)
    (reshuffle : option bool) (end_ : End) (dealt_cards : list item)
    : Py (list item * Stack) :=
  if num >? 0 then
    match fuel with
    | O => lift Diverge
    | S fuel' =>
        match stack.cards self with
        | PyList _ => raise (AttributeError "popleft")
        | Deque l =>
            let n := _num - num in
            (* the [except] branch, entered with [self] as the body left it *)
            let handler (self : Stack) : Py (list item * Stack) :=
              if size self =? 0 then
                if rebuild then
                  self ← build self None None;
                  r ← lift (local_name "reshuffle" reshuffle);
                  self ← (if r : bool then shuffle self 1 else mret self);
                  deal_loop fuel' self _num num rebuild reshuffle end_ dealt_cards
                else mret (dealt_cards, self)
              else deal_loop fuel' self _num num rebuild reshuffle end_ dealt_cards in
            match pop end_ l with
            | None => handler self
            | Some (card, l') =>
                let self := set_cards self (Deque l') in
                if (0 <=? n) && (n <? Z.of_nat (length dealt_cards)) then
                  deal_loop fuel' self _num (num - 1) rebuild reshuffle end_
                            (<[Z.to_nat n := card]> dealt_cards)
                else handler self
            end
        end
    end
  else mret (dealt_cards, self).

(** [deal(num=1, rebuild=None, shuffle=None, end=TOP)]: the dealt cards,
    always a plain [Stack], and [self] afterwards.  The local variable
    [reshuffle] is bound only when [shuffle] is not given. *)
Definition deal (fuel : nat) (self : Stack) (num : Z) (rebuild shuffle : option bool)
    (end_ : End) : Py (Stack * Stack) :=
  d ← lift (attributes self);
  let _num := num in
  let rebuild := default (stack.rebuild d) rebuild in
  let reshuffle := match shuffle with
                   | None => Some (stack.reshuffle d)
                   | Some _ => None
                   end in
  let self_size := Z.of_nat (length (items (stack.cards self))) in
  let dealt_cards :=
    if rebuild || (num <=? self_size)
    then replicate (Z.to_nat num) (None : item)
    else replicate (Z.to_nat self_size) (None : item) in
  '(dealt_cards, self) ← deal_loop fuel self _num num rebuild reshuffle end_ dealt_cards;
  dealt ← stack.__init__ (Some (AList dealt_cards)) (stack.ranks self);
  mret (dealt, self).

End deck.

(** The methods of class [Stack] as instances run them: the constructor
    that [self.__class__] names is that of the instance's class. *)
Module Stack.
Definition deal := stack.deal deck.new.
Definition split := stack.split deck.new.
Definition insert_list := stack.insert_list deck.new.
Definition insert := stack.insert deck.new.
Definition find_cards := stack.find_cards deck.new.
Definition find_card := stack.find_card deck.new.

End Stack.

(* ===================================================================== *)
(** ** Vocabulary of the properties *)
(* ===================================================================== *)

Module spec.
Import card stack.





(** The cards of a sequence in the order in which dealing from an end
    takes them: the top is the right end of the deque. *)
Definition dealing_order (end_ : End) (l : list item) : list item :=
  match end_ with
  | TOP => rev l
  | BOTTOM => l
  end.

(** A face from which the constructor derives a value. *)
Definition valid_face (face : object) : bool :=
  if face_value (capitalize (str face)) is Return _ then true else false.

Definition value_of_face (face : object) : Z :=
  if face_value (capitalize (str face)) is Return v then v else 0.

(** The card that [Card(face, suit)] makes of a valid face, given its
    identity. *)
Definition new_card (id : nat) (face suit : object) : Card :=
  mkCard id (capitalize (str face))
         (if truthy suit then PyStr (capitalize (str suit)) else suit)
         (value_of_face face).

(** The contents of a freshly built deck whose first card has identity
    [id]: one card per face and suit, face by face, then the jokers. *)
Fixpoint face_cards (id : nat) (face : object) (suits : list object) : list item :=
  match suits with
  | [] => []
  | suit :: suits' => Some (new_card id face suit) :: face_cards (S id) face suits'
  end.

Fixpoint deck_cards (id : nat) (faces suits : list object) : list item :=
  match faces with
  | [] => []
  | face :: faces' =>
      (face_cards id face suits ++ deck_cards (id + length suits) faces' suits)%list
  end.

Fixpoint joker_cards (id : nat) (n : nat) : list item :=
  match n with
  | O => []
  | S n' => Some (new_card id (PyStr Faces.JOKER) PyNone) :: joker_cards (S id) n'
  end.

Definition fresh_deck (id : nat) (d : deck_attributes) : list item :=
  (deck_cards id (faces d) (suits d)
   ++ joker_cards (id + length (faces d) * length (suits d)) (Z.to_nat (jokers d)))%list.

(** The face and suit a card is built from, as the card stores them, and
    the pair a card of a sequence stores. *)
Definition stored (face suit : object) : string * object :=
  (capitalize (str face), if truthy suit then PyStr (capitalize (str suit)) else suit).

Definition key (x : item) : option (string * object) :=
  (fun c => (card.face c, card.suit c)) <$> x.

(** The number of cards of a freshly built deck. *)
Definition fresh_size (d : deck_attributes) : nat :=
  (length (faces d) * length (suits d) + Z.to_nat (jokers d))%nat.

(** The size the specification gives a full deck:
    [decks * |faces| * |suits| + jokers]. *)
Definition full_size (d : deck_attributes) : Z :=
  decks d * Z.of_nat (length (faces d) * length (suits d)) + jokers d.

(** The interpreter state after [n] more objects were allocated. *)
Definition allocated (n : nat) (w : world) : world :=
  mkWorld (next_id w + n) (Ranks__values w) (random_draws w) (random_pos w).

(** A sequence with its [k] cards at one end in reverse order. *)
Definition end_reversed (end_ : End) (k : nat) (l : list item) : list item :=
  match end_ with
  | TOP => take (length l - k) l ++ rev (drop (length l - k) l)
  | BOTTOM => rev (take k l) ++ drop k l
  end%list.

(** [s.deal(num, end=end_)] on an instance: [Deck] overrides [deal]. *)
Definition deal (fuel : nat) (self : Stack) (num : Z) (end_ : End) : Py (Stack * Stack) :=
  match __class__ self with
  | StackClass => Stack.deal self num end_
  | DeckClass => deck.deal fuel self num None None end_
  end.
(** A [ranks] argument that passes the constructor's validation: none, or
    a dictionary with both tables. *)
Definition valid_ranks (a : option ranks.ranks_arg) : bool :=
  match a with
  | None => true
  | Some (ranks.Dict d) =>
      match ranks.suits d, ranks.cards d with
      | Some _, Some _ => true
      | _, _ => false
      end
  | Some (ranks.NotADict _) => false
  end.

(** [d[key]] for a weight table. *)
Definition weight (ws : ranks.weights) (key : string) : option Z :=
  (list_to_map ws : gmap string Z) !! key.

(** [table[suit][face]], if both keys are there. *)
Definition entry_of (table : gmap string (gmap string rank)) (suit face : string)
    : option rank :=
  table !! suit ≫= (.!! face).

End spec.

(* ===================================================================== *)
(** ** Client programs *)
(* ===================================================================== *)

Module client.
Import card stack.

(** [self._values[suit][face]], read off the interpreter state. *)
Definition table_entry (r : ranks.Ranks) (suit face : string) : Py (option rank) :=
  fun w => (Return (ranks._values r w !! suit ≫= (.!! face)), w).

(** [r = Ranks(); r.get_card_rank(Card('Ace', 'Spades'))], together with
    the table entry of that pair. *)
Definition rank_of_ace_of_spades : Py (option rank * ranks.entry) :=
  r ← ranks.__init__ None true None None;
  c ← card.__init__ (PyStr "Ace") (PyStr "Spades") None None;
  e ← table_entry r "Spades" "Ace";
  x ← ranks.get_card_rank r c;
  mret (e, x).

(** [r1 = Ranks(); r2 = Ranks(ranks={'suits': {'Spades': 2}, 'cards':
    {'Ace': 3}}, suit_first=True)], with the entry of the Ace of Spades in
    the table of [r1] before and after [r2] is made. *)
Definition two_Ranks : Py (option rank * option rank) :=
  r1 ← ranks.__init__ None true None None;
  before ← table_entry r1 "Spades" "Ace";
  r2 ← ranks.__init__
         (Some (ranks.Dict (ranks.mkRanksDict (Some [("Spades", 2)]) (Some [("Ace", 3)]))))
         true (Some true) None;
  after ← table_entry r1 "Spades" "Ace";
  mret (before, after).

(** Three cards, a hand of them (a [Stack]), and a [Deck] instance that
    holds them, with the attributes [Deck()] gives by default. *)
Definition two_of_clubs : Card := mkCard 0 "2" (PyStr "Clubs") 2.
Definition three_of_clubs : Card := mkCard 1 "3" (PyStr "Clubs") 3.
Definition four_of_clubs : Card := mkCard 2 "4" (PyStr "Clubs") 4.

Definition three_cards : list item :=
  [Some two_of_clubs; Some three_of_clubs; Some four_of_clubs].

Definition hand : Stack := mkStack (Deque three_cards) None None.

Definition default_attributes : deck_attributes :=
  mkDeckAttributes 1 0 false true Faces.default Suits.default.

Definition small_deck : Stack :=
  mkStack (Deque three_cards) None (Some default_attributes).

(** The same deck with rebuilding on, as [Deck(rebuild=True)] sets it. *)
Definition rebuilding_attributes : deck_attributes :=
  mkDeckAttributes 1 0 true true Faces.default Suits.default.

Definition rebuilding_deck : Stack :=
  mkStack (Deque three_cards) None (Some rebuilding_attributes).

(** [d = Deck(rebuild=True); d.deal(51); dealt = d.deal(54)]: one card is
    left when 54 are asked for.  The program gives [len(dealt)] and
    [d.size]. *)
Definition deal_54_from_one_card : Py (nat * Z) :=
  d ← deck.__init__ None None None None true (Some true) None None None;
  '(_, d) ← deck.deal 200 d 51 None None TOP;
  '(dealt, d) ← deck.deal 200 d 54 None None TOP;
  mret (length (items (cards dealt)), size d).

(** [d = Deck(rebuild=True); d.deal(53, shuffle=True)]: the flag is passed
    in the call. *)
Definition deal_with_shuffle_argument : Py (Stack * Stack) :=
  d ← deck.__init__ None None None None true (Some true) None None None;
  deck.deal 200 d 53 None (Some true) TOP.

(** [d = Deck(decks=2)], with [d.decks] and [len(d.cards)]. *)
Definition two_decks : Py (option Z * nat) :=
  d ← deck.__init__ (Some 2) None None None true None None None None;
  mret (decks <$> subclass d, length (items (cards d))).

End client.

(* ===================================================================== *)
(** ** Running code: equations of the state-and-exception monad *)
(* ===================================================================== *)

Local Open Scope list_scope.

Section running.
Context {A B : Type}.
Implicit Types (m : Py A) (k : A -> Py B) (w : world).

Lemma run_bind_Return m k w a w' :
  m w = (Return a, w') -> (m ≫= k) w = k a w'.
Proof. intros H. unfold mbind, Py_bind, bind. by rewrite H. Qed.

End running.

Lemma run_ret {A} (a : A) w : (mret a : Py A) w = (Return a, w).
Proof. reflexivity. Qed.

Lemma run_lift {A} (o : outcome A) w : lift o w = (o, w).
Proof. reflexivity. Qed.

(* ===================================================================== *)
(** ** Strings: capitalization *)
(* ===================================================================== *)





(* ===================================================================== *)
(** ** Cards *)
(* ===================================================================== *)

(** The constructor, run: it allocates one identity, stores the
    normalized face and suit, and raises what the value derivation raises. *)
Lemma Card_init_run face suit w :
  card.__init__ face suit None None w =
  (match card.face_value (capitalize (str face)) with
   | Return v =>
       Return (card.mkCard (next_id w) (capitalize (str face))
                 (if truthy suit then PyStr (capitalize (str suit)) else suit) v)
   | Raise e => Raise e
   | Diverge => Diverge
   end,
   mkWorld (S (next_id w)) (Ranks__values w) (random_draws w) (random_pos w)).
Proof.
  unfold card.__init__, mbind, Py_bind, bind, new_object, lift, mret, Py_ret, ret.
  by destruct (card.face_value _).
Qed.







(* ===================================================================== *)
(** ** Ranks *)
(* ===================================================================== *)

(** The property [name] never gives ['Joker']: it compares the integer
    value with the string, and otherwise formats "face of suit". *)
Lemma Card_name_is_not_Joker c : String.eqb (card.name c) "Joker" = false.
Proof.
  apply String.eqb_neq. unfold card.name. simpl.
  destruct (card.face c) as [|a1 [|a2 [|a3 [|a4 [|a5 [|a6 f]]]]]];
    simpl; intros H; discriminate H.
Qed.

(** The lookup of a card whose suit is in the table reads the attribute
    [card], which no [Card] has. *)
Lemma get_card_rank_known_suit r c w row :
  ranks.lookup_object (card.suit c) (Ranks__values w) = Some row ->
  ranks.get_card_rank r c w = (Raise (AttributeError "card"), w).
Proof.
  intros H. unfold ranks.get_card_rank, ranks._values.
  by rewrite Card_name_is_not_Joker, H.
Qed.

(** The lookup of a card whose suit is not in the table -- a Joker, whose
    suit is [None], among them -- gives 0, whatever [jokers] says. *)
Lemma get_card_rank_unknown_suit r c w :
  ranks.lookup_object (card.suit c) (Ranks__values w) = None ->
  ranks.get_card_rank r c w = (Return (ranks.Rank (RInt 0)), w).
Proof.
  intros H. unfold ranks.get_card_rank, ranks._values.
  by rewrite Card_name_is_not_Joker, H.
Qed.

(** C7: with the default ranks, the lookup of the Ace of Spades -- a pair
    of the declared vocabulary, with table entry 14 -- raises
    [AttributeError] instead of returning that entry. *)
Theorem get_card_rank_raises_on_declared_pair draws :
  fst (client.rank_of_ace_of_spades (start draws)) = Raise (AttributeError "card")
  /\ fst ((r ← ranks.__init__ None true None None;
           client.table_entry r "Spades" "Ace") (start draws))
     = Return (Some (RInt 14)).
Proof. split; by vm_compute. Qed.

(** C9: a second [Ranks], built from another specification, rewrites the
    table of the first (the entry of the Ace of Spades goes from 14 to 6):
    both read the one class-level [_values]. *)
Theorem second_Ranks_rewrites_first_table draws :
  fst (client.two_Ranks (start draws)) = Return (Some (RInt 14), Some (RInt 6)).
Proof. by vm_compute. Qed.

(* ===================================================================== *)
(** ** Stacks: comparison and splitting *)
(* ===================================================================== *)

(** C3: [compare] raises [UnboundLocalError] on every pair of collections
    (it tests its local [yours] before binding it), so neither it nor [==]
    nor [!=] returns a truth value. *)
Theorem compare_always_raises self cards :
  stack.compare self cards = Raise (UnboundLocalError "yours")
  /\ stack.__eq__ self cards = Raise (UnboundLocalError "yours")
  /\ stack.__ne__ self cards = Raise (UnboundLocalError "yours").
Proof. done. Qed.

(** C4: on a three-card stack, [split(-1)] gives the last card and the
    first card, which together are not the stack; and on every stack held
    in a deque, [split(size)] raises [AttributeError], the constructor
    being handed the deque itself. *)
Theorem split_does_not_partition :
  (forall a b c w, exists x y,
     Stack.split (stack.mkStack (stack.Deque [a; b; c]) None None) (Some (-1)) w
     = (Return (x, y), w)
     /\ (stack.items (stack.cards x) ++ stack.items (stack.cards y))%list = [c; a])
  /\ (forall l w,
        Stack.split (stack.mkStack (stack.Deque l) None None) (Some (Z.of_nat (length l))) w
        = (Raise (AttributeError "cards"), w)).
Proof.
  split.
  - intros a b c w. by eexists _, _.
  - intros l w. unfold Stack.split, stack.split. simpl.
    by rewrite Z.geb_leb, Z.leb_refl.
Qed.

(* ===================================================================== *)
(** ** Decks: building *)
(* ===================================================================== *)

(** C1: a [Deck] made with [decks=2] holds the 52 cards of one deck, not
    104: [build] never reads the attribute it stored. *)
Theorem build_ignores_decks draws :
  fst (client.two_decks (start draws)) = Return (Some 2, 52%nat).
Proof. by vm_compute. Qed.

(* ===================================================================== *)
(** ** Stacks: dealing and adding back *)
(* ===================================================================== *)

Section dealing.
Import stack.
Implicit Types (l xs q filled : list item) (self : Stack).

Lemma dealing_order_involutive end_ l :
  spec.dealing_order end_ (spec.dealing_order end_ l) = l.
Proof. destruct end_; simpl; [apply rev_involutive | done]. Qed.

Lemma dealing_order_length end_ l :
  length (spec.dealing_order end_ l) = length l.
Proof. destruct end_; simpl; [apply length_rev | done]. Qed.

Lemma pop_dealing_order end_ x xs :
  pop end_ (spec.dealing_order end_ (x :: xs)) = Some (x, spec.dealing_order end_ xs).
Proof.
  destruct end_; simpl; [|done]. by rewrite rev_app_distr, rev_involutive.
Qed.

Lemma pop_nil end_ : pop end_ [] = None.
Proof. by destruct end_. Qed.

Lemma set_cards_same self : set_cards self (cards self) = self.
Proof. by destruct self. Qed.

(** Writing a card into the first free slot of the result list. *)
Lemma insert_first_None filled x k :
  <[length filled := x]> (filled ++ replicate (S k) None)
  = (filled ++ [x]) ++ replicate k None.
Proof.
  rewrite insert_app_r_alt by lia. rewrite Nat.sub_diag. simpl. by rewrite <- app_assoc.
Qed.

(** The loop of [Stack.deal] moves the cards [xs] that lie first in
    dealing order into the free slots, one per round. *)
Lemma Stack_deal_loop_run end_ xs : forall q filled k,
  stack.deal_loop end_ (seq (length filled) (length xs))
    (spec.dealing_order end_ (xs ++ q)) (filled ++ replicate (length xs + k) None)
  = (spec.dealing_order end_ q, (filled ++ xs) ++ replicate k None).
Proof.
  induction xs as [|x xs IH]; intros q filled k.
  - simpl. by rewrite app_nil_r.
  - cbn [length seq stack.deal_loop app]. rewrite pop_dealing_order.
    rewrite bool_decide_eq_true_2 by (rewrite length_app, length_replicate; simpl; lia).
    change (S (length xs) + k)%nat with (S (length xs + k)).
    rewrite insert_first_None.
    specialize (IH q (filled ++ [x]) k). rewrite length_app in IH. simpl in IH.
    rewrite Nat.add_1_r in IH. rewrite IH. by rewrite <- (app_assoc filled [x] xs).
Qed.

Lemma getitem_in_range self (a : nat) x :
  items (cards self) !! a = Some x -> getitem self (Z.of_nat a) = Return x.
Proof.
  intros Hx. pose proof (lookup_lt_Some _ _ _ Hx) as Hlt.
  unfold getitem, sequence_getitem. cbv zeta.
  rewrite !(proj2 (Z.ltb_ge (Z.of_nat a) 0)) by lia.
  rewrite Z.geb_leb, (proj2 (Z.leb_gt _ _)) by lia.
  rewrite (proj2 (Z.leb_le 0 _)), (proj2 (Z.ltb_lt _ _)) by lia.
  simpl. by rewrite Nat2Z.id, Hx.
Qed.

(** Reading a stack through its indices [a], ..., [a + m - 1]. *)
Lemma getitems_range self : forall (m a : nat),
  (a + m <= length (items (cards self)))%nat ->
  getitems self (seqZ (Z.of_nat a) (Z.of_nat m))
  = Return (take m (drop a (items (cards self)))).
Proof.
  intros m. induction m as [|m IH]; intros a Hle.
  - done.
  - rewrite Nat2Z.inj_succ, seqZ_cons by lia. cbn [getitems].
    replace (Z.succ (Z.of_nat a)) with (Z.of_nat (S a)) by lia.
    replace (Z.pred (Z.succ (Z.of_nat m))) with (Z.of_nat m) by lia.
    rewrite (IH (S a)) by lia.
    destruct (lookup_lt_is_Some_2 (items (cards self)) a) as [x Hx]; [lia|].
    rewrite (getitem_in_range _ _ _ Hx). simpl.
    by rewrite (drop_S _ _ _ Hx).
Qed.

Lemma iterate_Stack s : iterate (AStack s) = Return (items (cards s)).
Proof.
  unfold iterate. rewrite (getitems_range s _ 0%nat) by lia.
  by rewrite drop_0, firstn_all.
Qed.

Lemma Stack_init_list l r w :
  stack.__init__ (Some (AList l)) r w = (Return (mkStack (Deque l) r None), w).
Proof. done. Qed.

Lemma Stack_init_empty r w :
  stack.__init__ None r w = (Return (mkStack (Deque []) r None), w).
Proof. done. Qed.

(** [Stack.deal] on a plain stack held in a deque: the first [num] cards in
    dealing order (all of them if there are fewer) move to a new [Stack]. *)
Lemma Stack_deal_run self l num end_ w :
  subclass self = None -> cards self = Deque l ->
  let m := Z.to_nat (Z.min num (Z.of_nat (length l))) in
  Stack.deal self num end_ w
  = (Return (mkStack (Deque (take m (spec.dealing_order end_ l))) (ranks self) None,
             set_cards self (Deque (spec.dealing_order end_ (drop m (spec.dealing_order end_ l))))),
     w).
Proof.
  intros Hsub Hcards m. unfold Stack.deal, stack.deal. rewrite Hcards.
  unfold __class__. rewrite Hsub. cbn [deck.new].
  assert (Hm : (if num <=? Z.of_nat (length l) then num else Z.of_nat (length l))
               = Z.min num (Z.of_nat (length l))).
  { destruct (Z.leb_spec num (Z.of_nat (length l))); lia. }
  rewrite Hm. fold m.
  assert (Hml : (m <= length l)%nat) by (unfold m; lia).
  destruct (Z.eqb_spec (Z.of_nat (length l)) 0) as [H0|H0]; cbn [negb].
  - destruct l; [|simpl in H0; lia].
    assert (m = 0%nat) as -> by (simpl in Hml; lia).
    rewrite (run_bind_Return _ _ _ _ _ (Stack_init_empty _ _)).
    destruct end_; simpl; rewrite <- Hcards, set_cards_same; done.
  - pose proof (Stack_deal_loop_run end_ (take m (spec.dealing_order end_ l))
                  (drop m (spec.dealing_order end_ l)) [] 0) as Hloop.
    rewrite take_drop, dealing_order_involutive in Hloop.
    rewrite length_take, dealing_order_length in Hloop.
    replace (m `min` length l)%nat with m in Hloop by lia.
    rewrite Nat.add_0_r in Hloop. simpl in Hloop. rewrite app_nil_r in Hloop.
    rewrite Hloop.
    by rewrite (run_bind_Return _ _ _ _ _ (Stack_init_list _ _ _)).
Qed.

(** One round of the loop of [Deck.deal] that finds a card at the end
    and a free slot for it. *)
Lemma Deck_deal_loop_pop fuel self _num num rb rs end_ filled k x l' w :
  cards self = Deque (spec.dealing_order end_ (x :: l')) ->
  0 < num -> Z.of_nat (length filled) = _num - num ->
  deck.deal_loop (S fuel) self _num num rb rs end_ (filled ++ replicate (S k) None) w
  = deck.deal_loop fuel (set_cards self (Deque (spec.dealing_order end_ l')))
      _num (num - 1) rb rs end_ ((filled ++ [x]) ++ replicate k None) w.
Proof.
  intros Hcards Hnum Hfilled. cbn [deck.deal_loop].
  rewrite (proj2 (Z.gtb_lt _ _)) by lia.
  rewrite Hcards, pop_dealing_order.
  rewrite <- Hfilled, (proj2 (Z.leb_le 0 _)) by lia.
  rewrite (proj2 (Z.ltb_lt _ _)) by (rewrite length_app, length_replicate; simpl; lia).
  cbn [andb]. by rewrite Nat2Z.id, insert_first_None.
Qed.

(** The loop of [Deck.deal] moves the cards [xs] that lie first in dealing
    order into the free slots, one per round. *)
Lemma Deck_deal_loop_pops rb rs end_ xs : forall q fuel self _num num filled k w,
  cards self = Deque (spec.dealing_order end_ (xs ++ q)) ->
  Z.of_nat (length xs) <= num -> Z.of_nat (length filled) = _num - num ->
  deck.deal_loop (length xs + fuel) self _num num rb rs end_
    (filled ++ replicate (length xs + k) None) w
  = deck.deal_loop fuel (set_cards self (Deque (spec.dealing_order end_ q)))
      _num (num - Z.of_nat (length xs)) rb rs end_ ((filled ++ xs) ++ replicate k None) w.
Proof.
  induction xs as [|x xs IH]; intros q fuel self _num num filled k w Hcards Hnum Hfilled.
  - simpl in *. by rewrite <- Hcards, set_cards_same, Z.sub_0_r, app_nil_r.
  - cbn [length Nat.add]. cbn [length] in Hnum. rewrite Nat2Z.inj_succ in Hnum.
    rewrite (Deck_deal_loop_pop _ _ _ _ _ _ _ _ _ x (xs ++ q)) by (done || lia).
    rewrite (IH q); [| by destruct self | lia | rewrite length_app; simpl; lia].
    replace (num - 1 - Z.of_nat (length xs)) with (num - Z.of_nat (S (length xs))) by lia.
    by rewrite <- (app_assoc filled [x] xs).
Qed.

Lemma dealing_order_nil end_ : spec.dealing_order end_ [] = [].
Proof. by destruct end_. Qed.

(** The loop of [Deck.deal] ends when no card is owed. *)
Lemma Deck_deal_loop_done fuel self _num num rb rs end_ dealt_cards w :
  num <= 0 ->
  deck.deal_loop fuel self _num num rb rs end_ dealt_cards w
  = (Return (dealt_cards, self), w).
Proof.
  intros Hnum. destruct fuel; cbn [deck.deal_loop];
    by rewrite Z.gtb_ltb, (proj2 (Z.ltb_ge _ _)) by lia.
Qed.

(** A round of the loop of [Deck.deal] on an empty deck, without
    rebuilding: the loop is left. *)
Lemma Deck_deal_loop_break fuel self _num num rs end_ dealt_cards w :
  cards self = Deque [] -> 0 < num ->
  deck.deal_loop (S fuel) self _num num false rs end_ dealt_cards w
  = (Return (dealt_cards, self), w).
Proof.
  intros Hcards Hnum. cbn [deck.deal_loop].
  rewrite (proj2 (Z.gtb_lt _ _)) by lia.
  rewrite Hcards, pop_nil. unfold size. by rewrite Hcards.
Qed.

(** [Deck.deal] of no more cards than the deck holds: nothing is rebuilt,
    whatever the flags. *)
Lemma Deck_deal_within fuel self d l (k : nat) rb sh end_ w :
  subclass self = Some d -> cards self = Deque l ->
  (k <= length l)%nat -> (k <= fuel)%nat ->
  deck.deal fuel self (Z.of_nat k) rb sh end_ w
  = (Return (mkStack (Deque (take k (spec.dealing_order end_ l))) (ranks self) None,
             set_cards self (Deque (spec.dealing_order end_ (drop k (spec.dealing_order end_ l))))),
     w).
Proof.
  intros Hsub Hcards Hk Hfuel. unfold deck.deal, deck.attributes. rewrite Hsub.
  rewrite (run_bind_Return _ _ _ _ _ (run_lift _ _)). rewrite Hcards. cbn [items].
  rewrite (proj2 (Z.leb_le (Z.of_nat k) _)), orb_true_r by lia. rewrite Nat2Z.id.
  pose proof (Deck_deal_loop_pops (default (rebuild d) rb)
                (match sh with Some _ => None | None => Some (reshuffle d) end)
                end_ (take k (spec.dealing_order end_ l))
                (drop k (spec.dealing_order end_ l)) (fuel - k) self
                (Z.of_nat k) (Z.of_nat k) [] 0 w) as Hloop.
  rewrite take_drop, dealing_order_involutive in Hloop.
  rewrite length_take, dealing_order_length in Hloop.
  replace (k `min` length l)%nat with k in Hloop by lia.
  replace (k + (fuel - k))%nat with fuel in Hloop by lia.
  rewrite Nat.add_0_r, Z.sub_diag in Hloop. simpl in Hloop. rewrite app_nil_r in Hloop.
  specialize (Hloop Hcards ltac:(lia) ltac:(lia)).
  erewrite run_bind_Return; [|rewrite Hloop; by apply Deck_deal_loop_done].
  cbn beta iota. by rewrite (run_bind_Return _ _ _ _ _ (Stack_init_list _ _ _)).
Qed.

(** [Deck.deal] of more cards than the deck holds, without rebuilding: the
    loop ends at the first failing [pop]. *)
Lemma Deck_deal_short fuel self d l num sh end_ w :
  subclass self = Some d -> cards self = Deque l -> rebuild d = false ->
  Z.of_nat (length l) < num -> (length l < fuel)%nat ->
  deck.deal fuel self num None sh end_ w
  = (Return (mkStack (Deque (spec.dealing_order end_ l)) (ranks self) None,
             set_cards self (Deque [])),
     w).
Proof.
  intros Hsub Hcards Hrb Hnum Hfuel. unfold deck.deal, deck.attributes. rewrite Hsub.
  rewrite (run_bind_Return _ _ _ _ _ (run_lift _ _)). rewrite Hcards. cbn [items].
  rewrite Hrb. cbn [default orb].
  rewrite (proj2 (Z.leb_gt _ _)) by lia. rewrite Nat2Z.id.
  pose proof (Deck_deal_loop_pops false
                (match sh with Some _ => None | None => Some (reshuffle d) end)
                end_ (spec.dealing_order end_ l) [] (fuel - length l) self
                num num [] 0 w) as Hloop.
  rewrite app_nil_r, dealing_order_involutive, dealing_order_length in Hloop.
  replace (length l + (fuel - length l))%nat with fuel in Hloop by lia.
  rewrite Nat.add_0_r in Hloop. simpl in Hloop. rewrite app_nil_r in Hloop.
  specialize (Hloop Hcards ltac:(lia) ltac:(lia)).
  destruct (fuel - length l)%nat as [|fuel'] eqn:Hf; [lia|].
  rewrite dealing_order_nil in Hloop.
  erewrite run_bind_Return.
  2:{ rewrite Hloop. apply Deck_deal_loop_break; [reflexivity | lia]. }
  cbn beta iota. by rewrite (run_bind_Return _ _ _ _ _ (Stack_init_list _ _ _)).
Qed.

End dealing.

(** Dispatch of [deal] for at most the cards held: both classes give the
    same result, a plain [Stack] of the first [k] cards in dealing order. *)
Lemma deal_within fuel self l (k : nat) end_ w :
  stack.cards self = stack.Deque l -> (k <= length l)%nat -> (k <= fuel)%nat ->
  spec.deal fuel self (Z.of_nat k) end_ w
  = (Return (stack.mkStack (stack.Deque (take k (spec.dealing_order end_ l)))
               (stack.ranks self) None,
             stack.set_cards self
               (stack.Deque (spec.dealing_order end_ (drop k (spec.dealing_order end_ l))))),
     w).
Proof.
  intros Hcards Hk Hfuel. unfold spec.deal, stack.__class__.
  destruct (stack.subclass self) as [d|] eqn:Hsub.
  - by apply (Deck_deal_within fuel self d).
  - rewrite (Stack_deal_run self l _ end_ w Hsub Hcards). cbv zeta.
    by replace (Z.to_nat (Z.min (Z.of_nat k) (Z.of_nat (length l)))) with k by lia.
Qed.

Lemma end_reversed_one end_ (l : list (option card.Card)) : spec.end_reversed end_ 1 l = l.
Proof.
  destruct end_; unfold spec.end_reversed.
  - destruct (drop (length l - 1) l) as [|x [|y r]] eqn:Hd.
    + rewrite <- (take_drop (length l - 1) l) at 3. by rewrite Hd.
    + rewrite <- (take_drop (length l - 1) l) at 3. by rewrite Hd.
    + apply (f_equal length) in Hd. rewrite length_drop in Hd. simpl in Hd. lia.
  - by destruct l.
Qed.

(** C5, as the specification states it, on a hand of three cards: dealing
    two from the top and adding them back at the top leaves the hand with
    its last two cards exchanged. *)
Lemma deal_two_then_add_reorders :
  exists dealt self' self'',
    spec.deal 2 client.hand 2 stack.TOP (start (fun _ => 0%nat))
    = (Return (dealt, self'), start (fun _ => 0%nat))
    /\ stack.add self' (stack.AStack dealt) stack.TOP = Return self''
    /\ stack.items (stack.cards self'')
       = [Some client.two_of_clubs; Some client.four_of_clubs; Some client.three_of_clubs]
    /\ stack.items (stack.cards self'') <> stack.items (stack.cards client.hand).
Proof. eexists _, _, _. repeat split; try reflexivity. discriminate. Qed.

(** C5 (amended): dealing [k] cards ([1 <= k <= size]) from an end and
    adding the dealt stack back at that end gives the original sequence with
    the [k] cards at that end in reverse order; for [k = 1] that is the
    original sequence. *)
Theorem deal_then_add_reverses_the_dealt_cards fuel self l (k : nat) end_ w :
  stack.cards self = stack.Deque l ->
  (1 <= k <= length l)%nat -> (k <= fuel)%nat ->
  exists dealt self' self'',
    spec.deal fuel self (Z.of_nat k) end_ w = (Return (dealt, self'), w)
    /\ stack.add self' (stack.AStack dealt) end_ = Return self''
    /\ stack.cards self'' = stack.Deque (spec.end_reversed end_ k l)
    /\ spec.end_reversed end_ 1 l = l.
Proof.
  intros Hcards Hk Hfuel.
  destruct end_; eexists _, _, _;
    (split; [apply (deal_within fuel self l k _ w Hcards); lia|]);
    unfold stack.add; rewrite iterate_Stack;
    cbn [stack.cards stack.set_cards stack.items];
    (split; [reflexivity|]); (split; [|apply end_reversed_one]);
    cbn [spec.dealing_order spec.end_reversed stack.cards stack.set_cards]; f_equal;
    try done.
  by rewrite skipn_rev, rev_involutive, firstn_rev.
Qed.

(** A run of C5 (amended): two cards dealt from the bottom of the hand of
    three and added back. *)
Lemma deal_then_add_reverses_the_dealt_cards_on_the_hand :
  exists dealt self' self'',
    spec.deal 2 client.hand (Z.of_nat 2) stack.BOTTOM (start (fun _ => 0%nat))
    = (Return (dealt, self'), start (fun _ => 0%nat))
    /\ stack.add self' (stack.AStack dealt) stack.BOTTOM = Return self''
    /\ stack.cards self'' = stack.Deque (spec.end_reversed stack.BOTTOM 2 client.three_cards)
    /\ spec.end_reversed stack.BOTTOM 1 client.three_cards = client.three_cards.
Proof.
  apply (deal_then_add_reverses_the_dealt_cards 2 client.hand client.three_cards 2).
  - reflexivity.
  - simpl. lia.
  - lia.
Defined.

(** C6, as the specification states it, on a [Deck] of three cards with
    rebuilding off: [deal(5)] returns the three cards, but as a [Stack], not
    as an instance of the class of the deck. *)
Lemma Deck_deal_returns_a_Stack :
  exists dealt self',
    spec.deal 4 client.small_deck 5 stack.TOP (start (fun _ => 0%nat))
    = (Return (dealt, self'), start (fun _ => 0%nat))
    /\ stack.__class__ client.small_deck = stack.DeckClass
    /\ stack.__class__ dealt <> stack.__class__ client.small_deck.
Proof. eexists _, _. repeat split; try reflexivity. discriminate. Qed.

(** C6 (amended): on a stack or deck held in a deque, with rebuilding off,
    [deal] of more cards than there are raises nothing; it returns all the
    cards, in dealing order, as a new plain [Stack] (also when dealt from a
    [Deck]) of fewer than [num] cards, and leaves the collection empty. *)
Theorem deal_beyond_size_returns_all fuel self l num end_ w :
  stack.cards self = stack.Deque l ->
  from_option stack.rebuild false (stack.subclass self) = false ->
  Z.of_nat (length l) < num -> (length l < fuel)%nat ->
  exists dealt,
    spec.deal fuel self num end_ w
    = (Return (dealt, stack.set_cards self (stack.Deque [])), w)
    /\ stack.cards dealt = stack.Deque (spec.dealing_order end_ l)
    /\ stack.__class__ dealt = stack.StackClass
    /\ Z.of_nat (length (stack.items (stack.cards dealt))) < num.
Proof.
  intros Hcards Hrb Hnum Hfuel. unfold spec.deal, stack.__class__.
  destruct (stack.subclass self) as [d|] eqn:Hsub.
  - rewrite (Deck_deal_short fuel self d l num None end_ w) by done.
    eexists. split; [reflexivity|]. cbn. by rewrite dealing_order_length.
  - rewrite (Stack_deal_run self l num end_ w Hsub Hcards). cbv zeta.
    replace (Z.to_nat (Z.min num (Z.of_nat (length l)))) with (length l) by lia.
    rewrite (take_ge (spec.dealing_order end_ l)) by (rewrite dealing_order_length; lia).
    rewrite (drop_ge (spec.dealing_order end_ l)) by (rewrite dealing_order_length; lia).
    rewrite dealing_order_nil.
    eexists. split; [reflexivity|]. cbn. by rewrite dealing_order_length.
Qed.

(** A run of C6 (amended): five cards asked of the hand of three. *)
Lemma deal_beyond_size_returns_all_of_the_hand :
  exists dealt,
    spec.deal 4 client.hand 5 stack.BOTTOM (start (fun _ => 0%nat))
    = (Return (dealt, stack.set_cards client.hand (stack.Deque [])), start (fun _ => 0%nat))
    /\ stack.cards dealt = stack.Deque (spec.dealing_order stack.BOTTOM client.three_cards)
    /\ stack.__class__ dealt = stack.StackClass
    /\ Z.of_nat (length (stack.items (stack.cards dealt))) < 5.
Proof.
  apply (deal_beyond_size_returns_all 4 client.hand client.three_cards 5).
  - reflexivity.
  - reflexivity.
  - simpl. lia.
  - simpl. lia.
Defined.

(** Why the statements on dealing ask for a deque: [reverse] (like [empty],
    [sort] and [insert_list]) rebinds [cards] to a list, which has no
    [popleft], and [deal] then raises when it collects the two [pop]
    methods. *)
Lemma deal_after_reverse_raises :
  exists reversed,
    stack.reverse client.hand = Return reversed
    /\ stack.cards reversed
       = stack.PyList [Some client.four_of_clubs; Some client.three_of_clubs;
                       Some client.two_of_clubs]
    /\ fst (spec.deal 4 reversed 1 stack.TOP (start (fun _ => 0%nat)))
       = Raise (AttributeError "popleft").
Proof. eexists. by repeat split. Qed.

(* ===================================================================== *)
(** ** Decks: building, shuffling and dealing with rebuilds *)
(* ===================================================================== *)

Section building.
Import stack.
Implicit Types (l xs q filled : list item) (self : Stack) (d : deck_attributes).

Lemma allocated_0 w : spec.allocated 0 w = w.
Proof. destruct w. unfold spec.allocated. simpl. by rewrite Nat.add_0_r. Qed.

Lemma allocated_allocated n m w :
  spec.allocated m (spec.allocated n w) = spec.allocated (n + m) w.
Proof. unfold spec.allocated. simpl. by rewrite Nat.add_assoc. Qed.

Lemma Card_init_valid face suit w :
  spec.valid_face face = true ->
  card.__init__ face suit None None w
  = (Return (spec.new_card (next_id w) face suit), spec.allocated 1 w).
Proof.
  unfold spec.valid_face, spec.new_card, spec.value_of_face. intros Hv.
  rewrite Card_init_run. unfold spec.allocated. rewrite Nat.add_1_r.
  by destruct (card.face_value _).
Qed.

Lemma build_face_run face suits : forall w,
  spec.valid_face face = true ->
  deck.build_face face suits w
  = (Return (spec.face_cards (next_id w) face suits), spec.allocated (length suits) w).
Proof.
  induction suits as [|suit suits IH]; intros w Hv.
  - by rewrite allocated_0.
  - cbn [deck.build_face].
    rewrite (run_bind_Return _ _ _ _ _ (Card_init_valid face suit w Hv)).
    rewrite (run_bind_Return _ _ _ _ _ (IH _ Hv)).
    rewrite run_ret, allocated_allocated. simpl. by rewrite Nat.add_1_r.
Qed.

Lemma build_faces_run faces suits : forall w,
  forallb spec.valid_face faces = true ->
  deck.build_faces faces suits w
  = (Return (spec.deck_cards (next_id w) faces suits),
     spec.allocated (length faces * length suits) w).
Proof.
  induction faces as [|face faces IH]; intros w Hv.
  - by rewrite allocated_0.
  - cbn [deck.build_faces]. simpl in Hv. apply andb_prop in Hv as [Hv Hvs].
    rewrite (run_bind_Return _ _ _ _ _ (build_face_run face suits w Hv)).
    rewrite (run_bind_Return _ _ _ _ _ (IH _ Hvs)).
    by rewrite run_ret, allocated_allocated.
Qed.

Lemma build_jokers_run n : forall w,
  deck.build_jokers n w
  = (Return (spec.joker_cards (next_id w) n), spec.allocated n w).
Proof.
  induction n as [|n IH]; intros w.
  - by rewrite allocated_0.
  - cbn [deck.build_jokers].
    rewrite (run_bind_Return _ _ _ _ _
               (Card_init_valid (PyStr card.Faces.JOKER) PyNone w eq_refl)).
    rewrite (run_bind_Return _ _ _ _ _ (IH _)).
    rewrite run_ret, allocated_allocated. simpl. by rewrite Nat.add_1_r.
Qed.

(** [build()] on a deck whose faces are all valid: the contents become a
    fresh deck, made of newly allocated cards. *)
Lemma build_run self d w :
  subclass self = Some d ->
  forallb spec.valid_face (faces d) = true ->
  deck.build self None None w
  = (Return (set_cards self (Deque (spec.fresh_deck (next_id w) d))),
     spec.allocated (spec.fresh_size d) w).
Proof.
  intros Hsub Hv. unfold deck.build, deck.attributes. rewrite Hsub.
  rewrite (run_bind_Return _ _ _ _ _ (run_lift _ _)). cbn [deck.or_list].
  rewrite (run_bind_Return _ _ _ _ _ (build_faces_run _ _ w Hv)).
  unfold spec.fresh_deck, spec.fresh_size.
  destruct (Z.eqb_spec (jokers d) 0) as [H0|H0]; cbn [negb].
  - rewrite (run_bind_Return _ _ _ _ _ (run_ret _ _)). rewrite run_ret.
    rewrite H0. simpl. by rewrite Nat.add_0_r.
  - rewrite (run_bind_Return _ _ _ _ _ (build_jokers_run _ _)).
    by rewrite run_ret, allocated_allocated.
Qed.

Lemma face_cards_length id face suits :
  length (spec.face_cards id face suits) = length suits.
Proof. revert id. induction suits as [|s suits IH]; intros id; simpl; [done|]. by rewrite IH. Qed.

Lemma deck_cards_length id faces suits :
  length (spec.deck_cards id faces suits) = (length faces * length suits)%nat.
Proof.
  revert id. induction faces as [|f faces IH]; intros id; simpl; [done|].
  by rewrite length_app, face_cards_length, IH.
Qed.

Lemma joker_cards_length id n : length (spec.joker_cards id n) = n.
Proof. revert id. induction n as [|n IH]; intros id; simpl; [done|]. by rewrite IH. Qed.

Lemma fresh_deck_length id d : length (spec.fresh_deck id d) = spec.fresh_size d.
Proof.
  unfold spec.fresh_deck, spec.fresh_size.
  by rewrite length_app, deck_cards_length, joker_cards_length.
Qed.

End building.

Section rebuilding.
Import stack.
Implicit Types (l xs q filled : list item) (self : Stack) (d : deck_attributes).

Lemma swap_Permutation l i j : swap l i j ≡ₚ l.
Proof.
  unfold swap. destruct (l !! i) as [a|] eqn:Hi; [|done].
  destruct (l !! j) as [b|] eqn:Hj; [|done].
  by apply Permutation_insert_swap.
Qed.

(** [random.shuffle] returns, with a permutation of its argument. *)
Lemma random_shuffle_run i : forall l w,
  exists l' w', random_shuffle i l w = (Return l', w') /\ l' ≡ₚ l.
Proof.
  induction i as [|i IH]; intros l w.
  - by exists l, w.
  - cbn [random_shuffle]. unfold mbind, Py_bind, bind, randbelow.
    destruct (IH (swap l (S i) (random_draws w (random_pos w) `mod` (S i + 1))%nat)
                 (mkWorld (next_id w) (Ranks__values w) (random_draws w) (S (random_pos w))))
      as (l' & w' & Hrun & Hperm).
    exists l', w'. split; [exact Hrun|]. by rewrite Hperm, swap_Permutation.
Qed.

Lemma shuffle_once_run self l w :
  cards self = Deque l ->
  exists l' w', shuffle self 1 w = (Return (set_cards self (Deque l')), w') /\ l' ≡ₚ l.
Proof.
  intros Hcards. cbn [shuffle]. rewrite Hcards. cbn [items].
  destruct (random_shuffle_run (length l - 1) l w) as (l' & w' & Hrun & Hperm).
  exists l', w'. split; [|done].
  rewrite (run_bind_Return _ _ _ _ _ Hrun). by rewrite run_ret.
Qed.

(** A round of the loop of [Deck.deal] on an empty deck, with rebuilding
    and reshuffling on: the deck is built anew and shuffled. *)
Lemma Deck_deal_loop_rebuild fuel self d _num num end_ dealt_cards w :
  subclass self = Some d -> cards self = Deque [] ->
  forallb spec.valid_face (faces d) = true -> 0 < num ->
  exists shuffled w',
    shuffled ≡ₚ spec.fresh_deck (next_id w) d
    /\ deck.deal_loop (S fuel) self _num num true (Some true) end_ dealt_cards w
       = deck.deal_loop fuel (set_cards self (Deque shuffled)) _num num true (Some true)
           end_ dealt_cards w'.
Proof.
  intros Hsub Hcards Hv Hnum.
  destruct (shuffle_once_run (set_cards self (Deque (spec.fresh_deck (next_id w) d)))
              (spec.fresh_deck (next_id w) d) (spec.allocated (spec.fresh_size d) w) eq_refl)
    as (shuffled & w' & Hrun & Hperm).
  exists shuffled, w'. split; [done|].
  cbn [deck.deal_loop]. rewrite (proj2 (Z.gtb_lt _ _)) by lia.
  rewrite Hcards, pop_nil. unfold size. rewrite Hcards. change (Z.of_nat (length (items (Deque []))) =? 0) with true.
  cbv iota.
  rewrite (run_bind_Return _ _ _ _ _ (build_run self d w Hsub Hv)).
  change (local_name "reshuffle" (Some true)) with (@Return bool true).
  rewrite (run_bind_Return _ _ _ _ _ (run_lift _ _)).
  by rewrite (run_bind_Return _ _ _ _ _ Hrun).
Qed.

End rebuilding.

(** C2, as the specification states it, on a default [Deck] with
    rebuilding on and one card left: [deal(54)] returns 54 cards and leaves
    51 (the deck is rebuilt twice), not (1 x 52 + 0) - (54 - 1). *)
Lemma Deck_deal_rebuilds_more_than_once :
  fst (client.deal_54_from_one_card (start (fun _ => 0%nat))) = Return (54%nat, 51)
  /\ 51 <> (1 * 52 + 0) - (54 - 1).
Proof. split; [by vm_compute | lia]. Qed.

(** A deck rebuilt in the course of [deal]: when the [shuffle] flag is
    passed in the call, the local [reshuffle] is unbound at its first use. *)
Lemma Deck_deal_with_shuffle_argument_raises draws :
  fst (client.deal_with_shuffle_argument (start draws))
  = Raise (UnboundLocalError "reshuffle").
Proof. by vm_compute. Qed.

(** C2 (amended): on a [Deck] of one deck (held in a deque, all faces
    valid) with rebuilding on (configured or passed in the call) and
    reshuffling configured, [deal(num)] for [num] above the number [r] of
    cards left, and owing no more than one full deck, returns exactly [num]
    cards: the [r] cards left, in dealing order, then the first [num - r]
    of a freshly built and shuffled deck; the rest of that deck stays, so
    the size afterwards is the full size less [num - r]. *)
Theorem Deck_deal_rebuilds_and_continues fuel self d l num rebuild end_ w :
  stack.subclass self = Some d ->
  stack.cards self = stack.Deque l ->
  stack.decks d = 1 ->
  default (stack.rebuild d) rebuild = true ->
  stack.reshuffle d = true ->
  forallb spec.valid_face (stack.faces d) = true ->
  0 <= stack.jokers d ->
  Z.of_nat (length l) < num <= Z.of_nat (length l) + spec.full_size d ->
  (Z.to_nat num < fuel)%nat ->
  exists dealt self' w' shuffled,
    deck.deal fuel self num rebuild None end_ w = (Return (dealt, self'), w')
    /\ shuffled ≡ₚ spec.fresh_deck (next_id w) d
    /\ stack.items (stack.cards dealt)
       = spec.dealing_order end_ l
         ++ take (Z.to_nat (num - Z.of_nat (length l))) (spec.dealing_order end_ shuffled)
    /\ stack.cards self'
       = stack.Deque (spec.dealing_order end_
                       (drop (Z.to_nat (num - Z.of_nat (length l)))
                             (spec.dealing_order end_ shuffled)))
    /\ Z.of_nat (length (stack.items (stack.cards dealt))) = num
    /\ stack.size self' = spec.full_size d - (num - Z.of_nat (length l)).
Proof.
  intros Hsub Hcards Hdecks Hrb Hrs Hv Hj Hnum Hfuel.
  set (full := spec.full_size d) in *.
  set (owed := Z.to_nat (num - Z.of_nat (length l))).
  assert (Hfull : full = Z.of_nat (spec.fresh_size d)).
  { unfold full, spec.full_size, spec.fresh_size. rewrite Hdecks. lia. }
  assert (Howed : Z.of_nat owed = num - Z.of_nat (length l)) by (unfold owed; lia).
  clearbody full owed.
  (* the cards left are dealt *)
  pose proof (Deck_deal_loop_pops true (Some true) end_ (spec.dealing_order end_ l) []
                (fuel - length l) self num num [] owed w) as Hleft.
  rewrite app_nil_r, dealing_order_involutive, dealing_order_length in Hleft.
  replace (length l + (fuel - length l))%nat with fuel in Hleft by lia.
  rewrite dealing_order_nil in Hleft. cbn [app] in Hleft.
  specialize (Hleft Hcards ltac:(lia) ltac:(simpl; lia)).
  (* the deck is rebuilt and shuffled *)
  destruct (fuel - length l)%nat as [|fuel1] eqn:Hfuel1; [lia|].
  destruct (Deck_deal_loop_rebuild fuel1 (stack.set_cards self (stack.Deque [])) d num
              (num - Z.of_nat (length l)) end_
              (spec.dealing_order end_ l ++ replicate owed None) w
              Hsub eq_refl Hv ltac:(lia))
    as (shuffled & w' & Hperm & Hrebuild).
  assert (Hlen : length shuffled = spec.fresh_size d).
  { by rewrite Hperm, fresh_deck_length. }
  (* the cards owed are dealt from the new deck *)
  pose proof (Deck_deal_loop_pops true (Some true) end_
                (take owed (spec.dealing_order end_ shuffled))
                (drop owed (spec.dealing_order end_ shuffled))
                (fuel1 - owed)
                (stack.set_cards (stack.set_cards self (stack.Deque [])) (stack.Deque shuffled))
                num (num - Z.of_nat (length l)) (spec.dealing_order end_ l) 0 w') as Hnew.
  rewrite take_drop, dealing_order_involutive in Hnew.
  rewrite length_take, dealing_order_length in Hnew.
  replace (owed `min` length shuffled)%nat with owed in Hnew by lia.
  replace (owed + (fuel1 - owed))%nat with fuel1 in Hnew by lia.
  rewrite Nat.add_0_r in Hnew. cbn [replicate] in Hnew. rewrite app_nil_r in Hnew.
  specialize (Hnew eq_refl ltac:(lia) ltac:(rewrite dealing_order_length; lia)).
  rewrite (Deck_deal_loop_done (fuel1 - owed)) in Hnew by lia.
  (* the method as a whole *)
  eexists _, _, w', shuffled. split; [|split; [exact Hperm|]].
  - unfold deck.deal, deck.attributes. rewrite Hsub.
    rewrite (run_bind_Return _ _ _ _ _ (run_lift _ _)). rewrite Hrb, Hrs. cbn [orb].
    replace (Z.to_nat num) with (length l + owed)%nat by lia.
    erewrite run_bind_Return; [|by rewrite Hleft, Hrebuild, Hnew].
    cbn beta iota. by rewrite (run_bind_Return _ _ _ _ _ (Stack_init_list _ _ _)).
  - cbn [stack.cards stack.items stack.set_cards]. split; [done|]. split; [done|]. split.
    + rewrite length_app, length_take, !dealing_order_length. lia.
    + unfold stack.size. cbn [stack.cards stack.items stack.set_cards].
      rewrite dealing_order_length, length_drop, dealing_order_length. lia.
Qed.

(** A run of C2 (amended): five cards asked of a rebuilding deck that
    holds three. *)
Lemma Deck_deal_rebuilds_and_continues_on_three_cards :
  exists dealt self' w' shuffled,
    deck.deal 6 client.rebuilding_deck 5 None None stack.TOP (start (fun _ => 0%nat))
    = (Return (dealt, self'), w')
    /\ shuffled ≡ₚ spec.fresh_deck (next_id (start (fun _ => 0%nat)))
                                    client.rebuilding_attributes
    /\ stack.items (stack.cards dealt)
       = spec.dealing_order stack.TOP client.three_cards
         ++ take (Z.to_nat (5 - Z.of_nat (length client.three_cards)))
                 (spec.dealing_order stack.TOP shuffled)
    /\ stack.cards self'
       = stack.Deque (spec.dealing_order stack.TOP
                       (drop (Z.to_nat (5 - Z.of_nat (length client.three_cards)))
                             (spec.dealing_order stack.TOP shuffled)))
    /\ Z.of_nat (length (stack.items (stack.cards dealt))) = 5
    /\ stack.size self'
       = spec.full_size client.rebuilding_attributes
         - (5 - Z.of_nat (length client.three_cards)).
Proof.
  apply (Deck_deal_rebuilds_and_continues 6 client.rebuilding_deck
           client.rebuilding_attributes client.three_cards 5 None stack.TOP).
  - reflexivity.
  - reflexivity.
  - reflexivity.
  - reflexivity.
  - reflexivity.
  - reflexivity.
  - simpl. lia.
  - vm_compute. split; [reflexivity | discriminate].
  - simpl. lia.
Defined.

(* ===================================================================== *)
(** ** Decks: what [build] puts into the deck *)
(* ===================================================================== *)

Section contents.
Import stack.

Lemma face_cards_keys id face suits :
  spec.key <$> spec.face_cards id face suits = (fun suit => Some (spec.stored face suit)) <$> suits.
Proof. revert id. induction suits as [|s suits IH]; intros id; simpl; [done|]. by rewrite IH. Qed.

(** Every pair of a face and a suit gives one card, face by face. *)
Lemma deck_cards_keys id faces suits :
  spec.key <$> spec.deck_cards id faces suits
  = faces ≫= (fun face => (fun suit => Some (spec.stored face suit)) <$> suits).
Proof.
  revert id. induction faces as [|f faces IH]; intros id; simpl; [done|].
  by rewrite fmap_app, face_cards_keys, IH.
Qed.

Lemma joker_cards_keys id n :
  spec.key <$> spec.joker_cards id n = replicate n (Some ("Joker", PyNone)).
Proof. revert id. induction n as [|n IH]; intros id; simpl; [done|]. by rewrite IH. Qed.

Lemma face_cards_idents id face suits :
  fmap card.ident <$> spec.face_cards id face suits = Some <$> seq id (length suits).
Proof. revert id. induction suits as [|s suits IH]; intros id; simpl; [done|]. by rewrite IH. Qed.

Lemma deck_cards_idents id faces suits :
  fmap card.ident <$> spec.deck_cards id faces suits
  = Some <$> seq id (length faces * length suits).
Proof.
  revert id. induction faces as [|f faces IH]; intros id; simpl; [done|].
  by rewrite fmap_app, face_cards_idents, IH, seq_app, fmap_app.
Qed.

Lemma joker_cards_idents id n :
  fmap card.ident <$> spec.joker_cards id n = Some <$> seq id n.
Proof. revert id. induction n as [|n IH]; intros id; simpl; [done|]. by rewrite IH. Qed.

(** A freshly built deck: one card for every pair of a face and a suit,
    then the jokers, all of them distinct, newly allocated instances.  The
    attribute [decks] plays no part. *)
Lemma fresh_deck_contents id d :
  spec.key <$> spec.fresh_deck id d
  = (faces d ≫= (fun face => (fun suit => Some (spec.stored face suit)) <$> suits d))
    ++ replicate (Z.to_nat (jokers d)) (Some ("Joker", PyNone))
  /\ fmap card.ident <$> spec.fresh_deck id d = Some <$> seq id (spec.fresh_size d)
  /\ NoDup (spec.fresh_deck id d).
Proof.
  assert (Hid : fmap card.ident <$> spec.fresh_deck id d = Some <$> seq id (spec.fresh_size d)).
  { unfold spec.fresh_deck, spec.fresh_size.
    by rewrite fmap_app, deck_cards_idents, joker_cards_idents, seq_app, fmap_app. }
  split; [|split; [exact Hid|]].
  - unfold spec.fresh_deck. by rewrite fmap_app, deck_cards_keys, joker_cards_keys.
  - apply (NoDup_fmap_1 (fmap card.ident)). rewrite Hid.
    apply NoDup_fmap_2; [apply _ | apply NoDup_seq].
Qed.

End contents.

(* ===================================================================== *)
(** ** Cards: comparisons and search terms *)
(* ===================================================================== *)

(** X1: [==] and [!=] between two cards raise [NameError] (the type test
    calls the misspelt [isinstace]) whatever the cards are. *)
Theorem Card_equality_raises a b :
  card.__eq__ a b = Raise (NameError "isinstace")
  /\ card.__ne__ a b = Raise (NameError "isinstace").
Proof. done. Qed.

(** X2: no card carries the attribute [ranks], so [get_rank] and the six
    comparisons by rank raise [AttributeError] on all cards. *)
Theorem Card_rank_comparisons_raise a b :
  card.get_rank a = Raise (AttributeError "ranks")
  /\ card.eq a b = Raise (AttributeError "ranks")
  /\ card.ne a b = Raise (AttributeError "ranks")
  /\ card.ge a b = Raise (AttributeError "ranks")
  /\ card.gt a b = Raise (AttributeError "ranks")
  /\ card.le a b = Raise (AttributeError "ranks")
  /\ card.lt a b = Raise (AttributeError "ranks").
Proof. done. Qed.

(** The abbreviation of a card is "JKR" for a Joker; for any other card
    the property raises [NameError] on the global [suit]. *)
Lemma Card_abbrev_run c :
  card.abbrev c
  = if String.eqb (card.face c) card.Faces.JOKER then Return "JKR"
    else Raise (NameError "suit").
Proof.
  unfold card.abbrev. destruct (String.eqb _ _); [done|].
  case_bool_decide as Hf; [|done].
  repeat (apply elem_of_cons in Hf as [->|Hf]; [done|]).
  by apply elem_of_nil in Hf.
Qed.

(** X3: [matches] returns for no card and no term.  For every card but a
    Joker it raises [NameError] (the abbreviation reads the global
    [suit]); for a Joker it raises on [self.suit[0]] when the suit is not
    a string ([TypeError]) or is empty ([IndexError]), and otherwise on
    [self.value.lower()] ([AttributeError]). *)
Theorem Card_matches_raises c term :
  card.matches c term
  = Raise (if String.eqb (card.face c) card.Faces.JOKER then
             match card.suit c with
             | PyStr EmptyString => IndexError "string index out of range"
             | PyStr _ => AttributeError "lower"
             | _ => TypeError "object is not subscriptable"
             end
           else NameError "suit").
Proof.
  unfold card.matches. rewrite Card_abbrev_run.
  destruct (String.eqb _ _); [|done]. cbn [obind].
  destruct (card.suit c) as [|b|z|[|ch s]]; done.
Qed.

(* ===================================================================== *)
(** ** Ranks: construction and the derived table *)
(* ===================================================================== *)

Section ranks_table.
Implicit Types (self : ranks.Ranks) (row : gmap string rank)
  (table : gmap string (gmap string rank)) (faces suits : ranks.weights).

Lemma weight_cons_eq k v ws : spec.weight ((k, v) :: ws) k = Some v.
Proof. unfold spec.weight. simpl. apply lookup_insert_eq. Qed.

Lemma weight_cons_ne k v ws k' : k ≠ k' -> spec.weight ((k, v) :: ws) k' = spec.weight ws k'.
Proof. intros Hne. unfold spec.weight. simpl. by apply lookup_insert_ne. Qed.

Lemma weight_None k ws : k ∉ ws.*1 -> spec.weight ws k = None.
Proof. intros Hk. unfold spec.weight. by apply not_elem_of_list_to_map_1. Qed.

(** One row after the inner loop: the faces of the table get their rank,
    the other entries of the row stay. *)
Lemma build_suit_lookup self suitvalue faces : forall row face,
  NoDup faces.*1 ->
  ranks.build_suit self suitvalue faces row !! face
  = match spec.weight faces face with
    | Some cardvalue => Some (ranks.rank_value self suitvalue cardvalue)
    | None => row !! face
    end.
Proof.
  unfold ranks.build_suit.
  induction faces as [|[k v] faces IH]; intros row face Hnd; [done|].
  apply NoDup_cons in Hnd as [Hk Hnd]. cbn [foldl]. rewrite IH by done.
  destruct (decide (k = face)) as [->|Hne].
  - by rewrite weight_cons_eq, weight_None, lookup_insert_eq.
  - rewrite weight_cons_ne by done. by rewrite lookup_insert_ne.
Qed.

(** The outer loop returns when the rank specification has its face
    table, and gives every suit of the table its row. *)
Lemma build_suits_run self faces suits : forall table,
  ranks.cards (ranks.ranks self) = Some faces ->
  NoDup suits.*1 ->
  exists table',
    ranks.build_suits self suits table = (Return tt, table')
    /\ forall suit,
         table' !! suit
         = match spec.weight suits suit with
           | Some suitvalue =>
               Some (ranks.build_suit self suitvalue faces (default ∅ (table !! suit)))
           | None => table !! suit
           end.
Proof.
  induction suits as [|[k v] suits IH]; intros table Hfaces Hnd.
  - exists table. by split.
  - apply NoDup_cons in Hnd as [Hk Hnd]. cbn [ranks.build_suits]. rewrite Hfaces.
    set (table1 := if table !! k is Some _ then table else <[k:=∅]> table).
    assert (Hrow : table1 !!! k = default ∅ (table !! k)).
    { unfold table1. destruct (table !! k) as [row|] eqn:Hrow.
      - by rewrite (lookup_total_correct _ _ _ Hrow).
      - by rewrite lookup_total_insert_eq. }
    assert (Hother : forall suit, k ≠ suit -> table1 !! suit = table !! suit).
    { intros suit Hne. unfold table1. destruct (table !! k); [done|].
      by rewrite lookup_insert_ne. }
    destruct (IH (<[k:=ranks.build_suit self v faces (table1 !!! k)]> table1) Hfaces Hnd)
      as (table' & Hrun & Hlookup).
    exists table'. split; [exact Hrun|]. intros suit. rewrite Hlookup.
    destruct (decide (k = suit)) as [->|Hne].
    + by rewrite weight_cons_eq, weight_None, lookup_insert_eq, Hrow.
    + rewrite weight_cons_ne by done. rewrite lookup_insert_ne by done.
      by rewrite Hother.
Qed.

End ranks_table.
